(** * Diagnostics capture layer of the pace driver

    A shallow embedding of [pace/driver/diagnostics.py]: configuration
    validation ([DiagnosticsConfig.__post_init__]), the factory
    ([DiagnosticsConfig.diagnostics_factory]), the per-timestep
    [MonitorDiagnostics.store], the derived-diagnostics resolver
    ([MonitorDiagnostics._get_derived_state]), the column integrator
    ([_compute_column_integral]) and the no-op variant.

    Python exceptions are modelled by the [result] type.  The side effects
    of the module (calls on the backend monitor, [warnings.warn], calls on
    the filesystem and on the constructors of the storage engines) are
    recorded in an explicit world threaded through a state and error
    monad.  What the collaborators outside the module answer, and whether
    they raise, is left open: the arithmetic of the array library, the
    backend monitor, the filesystem and the storage engines are parameters
    of the development. *)

From Stdlib Require Import ZArith List String Lia SpecFloat.
From stdpp Require Import base gmap strings list pretty.

Set Warnings "-clear-no-such-hyp".

Open Scope string_scope.
Open Scope list_scope.

(** ** Exceptions and results *)

(** The exception classes the module raises itself, and the exceptions of
    any other class that its collaborators may raise. *)
Inductive exn : Type :=
| ValueError (msg : string)
| AssertionError
| NotImplementedError (msg : string)
| IndexError
| AttributeError (name : string)
| OtherException (cls msg : string).

Inductive result (A : Type) : Type :=
| Ok (a : A)
| Raise (e : exn).

Arguments Ok {A} a.
Arguments Raise {A} e.

Class Monad (M : Type -> Type) : Type := {
  ret : forall {A}, A -> M A;
  bind : forall {A B}, M A -> (A -> M B) -> M B
}.

Declare Scope py_scope.
Delimit Scope py_scope with py.
Notation "x <- c1 ;; c2" := (bind c1 (fun x => c2))
  (at level 100, c1 at next level, right associativity) : py_scope.
Notation "c1 ;; c2" := (bind c1 (fun _ => c2))
  (at level 100, right associativity) : py_scope.
Open Scope py_scope.

Definition result_bind {A B} (c : result A) (k : A -> result B) : result B :=
  match c with
  | Ok a => k a
  | Raise e => Raise e
  end.

#[export] Instance result_monad : Monad result :=
  {| ret := @Ok; bind := @result_bind |}.

Definition is_ok {A} (r : result A) : bool :=
  match r with Ok _ => true | Raise _ => false end.

(** A [for] loop threading the loop state through the monad [M]. *)
Fixpoint for_each {M} `{Monad M} {A S} (l : list A) (body : A -> S -> M S)
    (s : S) : M S :=
  match l with
  | [] => ret s
  | x :: l' => s' <- body x s ;; for_each l' body s'
  end.

(** ** DiagnosticsConfig *)

Record DiagnosticsConfig : Type := {
  path : option string;
  output_format : string;
  time_chunk_size : Z;
  names : list string;
  derived_names : list string
}.

(** Python's [x in [a; b; ...]] on strings. *)
Definition str_in (x : string) (l : list string) : bool :=
  existsb (String.eqb x) l.

Arguments str_in : simpl never.

Definition is_None {A} (o : option A) : bool :=
  match o with None => true | Some _ => false end.

Definition __post_init__ (self : DiagnosticsConfig) : result unit :=
  if ((0 <? length (names self))%nat || (0 <? length (derived_names self))%nat)
     && is_None (path self)
  then Raise (ValueError "DiagnosticsConfig.path must be given to enable diagnostics")
  else if negb (str_in (output_format self) ["zarr"; "netcdf"])
  then Raise (ValueError ("output_format must be one of 'zarr' or 'netcdf', got "
                          ++ output_format self))
  else Ok tt.

(** The dataclass constructor: fill the fields, then run [__post_init__]. *)
Definition DiagnosticsConfig_init (path : option string) (output_format : string)
    (time_chunk_size : Z) (names derived_names : list string)
  : result DiagnosticsConfig :=
  let self := {| path := path; output_format := output_format;
                 time_chunk_size := time_chunk_size; names := names;
                 derived_names := derived_names |} in
  __post_init__ self ;; Ok self.

(** ** The array library *)

(** The arithmetic of the array library behind [q_in.np] and behind the
    operators of the arrays: the type of the entries, the product of two
    entries, and the sum of a run of entries taken in index order.  How
    the products are rounded and in which order and precision the sum is
    accumulated is the library's business; nothing is assumed of either. *)
Class ArrayModule : Type := {
  F : Type;
  np_multiply : F -> F -> F;
  np_sum : list F -> F
}.

(** Python's [t[i]] on a tuple, for a non-negative constant [i]. *)
Definition getitem {A} (t : list A) (i : nat) : result A :=
  match nth_error t i with
  | Some x => Ok x
  | None => Raise IndexError
  end.

(** [slice(start, stop).indices(len)] with unit step: a negative bound
    counts from the end, and both bounds are clipped to [0, len]. *)
Definition clip_bound (i len : Z) : Z :=
  if (i <? 0)%Z then Z.max 0 (i + len) else Z.min i len.

Definition slice_indices (start stop : Z) (len : nat) : nat * nat :=
  let lo := clip_bound start (Z.of_nat len) in
  let hi := clip_bound stop (Z.of_nat len) in
  (Z.to_nat lo, Z.to_nat (hi - lo)).

Definition shift_axis2 (lo : nat) (idx : list nat) : list nat :=
  match idx with
  | i :: j :: k :: r => i :: j :: (lo + k)%nat :: r
  | _ => idx
  end.

(** Broadcasting of two shapes, given last axis first. *)
Fixpoint broadcast_aligned (s1 s2 : list nat) : option (list nat) :=
  match s1, s2 with
  | [], _ => Some s2
  | _, [] => Some s1
  | a :: s1', b :: s2' =>
      match broadcast_aligned s1' s2' with
      | None => None
      | Some s =>
          if (a =? b)%nat then Some (a :: s)
          else if (a =? 1)%nat then Some (b :: s)
          else if (b =? 1)%nat then Some (a :: s)
          else None
      end
  end.

Definition broadcast_shapes (s1 s2 : list nat) : option (list nat) :=
  match broadcast_aligned (rev s1) (rev s2) with
  | Some s => Some (rev s)
  | None => None
  end.

(** The index an operand of shape [s] is read at, for the index [idx] of
    the broadcast result: leading axes the operand lacks are dropped, and
    an axis of length one is read at 0. *)
Definition broadcast_axis (n i : nat) : nat :=
  if (n =? 1)%nat then 0%nat else i.

Definition broadcast_index (s idx : list nat) : list nat :=
  zip_with broadcast_axis s (drop (length idx - length s) idx).

Definition insert_axis2 (k : nat) (idx : list nat) : list nat :=
  match idx with
  | i :: j :: r => i :: j :: k :: r
  | _ => idx
  end.

(** The index [idx] lies within the shape [s]. *)
Fixpoint in_bounds (s idx : list nat) : bool :=
  match s, idx with
  | [], [] => true
  | n :: s', i :: idx' => (i <? n)%nat && in_bounds s' idx'
  | _, _ => false
  end.

(** A Quantity describes a sub-domain of its array: [origin, origin +
    extent) within the axis. *)
Definition within_axis (n : nat) (o e : Z) : bool :=
  ((0 <=? o) && (0 <=? e) && (o + e <=? Z.of_nat n))%Z.

Fixpoint subdomain_ok (s : list nat) (os es : list Z) : bool :=
  match s, os, es with
  | [], [], [] => true
  | n :: s', o :: os', e :: es' => within_axis n o e && subdomain_ok s' os' es'
  | _, _, _ => false
  end.

(** [Union[datetime, timedelta]]: an absolute timestamp or an elapsed
    duration, in microseconds. *)
Inductive TimeValue : Type :=
| Datetime (t : Z)
| Timedelta (t : Z).

(** The configuration of a [MonitorDiagnostics] object; its monitor is
    the backend of the world. *)
Record MonitorDiagnostics : Type := {
  md_names : list string;
  md_derived_names : list string
}.

Definition column_integrated_ : string := "column_integrated_".

Definition startswith (s p : string) : bool := String.prefix p s.

(** [s[n:]] for [0 <= n]. *)
Definition str_from (n : nat) (s : string) : string :=
  String.substring n (String.length s - n) s.

Definition unsupported_msg (name : string) : string :=
  name ++ " is not a supported diagnostic variable.".

(** A derived name the resolver supports. *)
Definition supported (name : string) : bool := startswith name column_integrated_.

Definition unsupported (name : string) : bool := negb (supported name).

(** Modelled from the spec: the communicator is declared outside this
    module; it supplies a domain-decomposition partitioner and a
    collective-communication handle, both opaque here. *)
Inductive Partitioner : Type := PartitionerHandle (id : nat).
Inductive MPIComm : Type := MPICommHandle (id : nat).

Record Communicator : Type := {
  partitioner : Partitioner;
  comm : MPIComm
}.

(** [zarr.storage.DirectoryStore(path=...)]. *)
Inductive ZarrStore : Type := DirectoryStore (path : string).

(** Modelled from the spec: the two backend monitors, as the constructor
    calls of the factory describe them. *)
Inductive Monitor : Type :=
| ZarrMonitor (store : ZarrStore) (partitioner : Partitioner) (mpi_comm : MPIComm)
| NetCDFMonitor (path : string) (communicator : Communicator)
    (time_chunk_size : Z).

(** The two variants of the abstract class [Diagnostics]. *)
Inductive Diagnostics : Type :=
| NullDiagnostics
| Monitored (monitor : Monitor) (self : MonitorDiagnostics).

(** The calls the factory makes outside the module: on the filesystem
    returned by [pace.util.get_fs], on the zarr storage module and on the
    constructors of the monitors. *)
Inductive OutsideCall : Type :=
| GetFs (path : string)
| FsExists (path : string)
| FsMakedirs (path : string)
| NewDirectoryStore (path : string)
| NewZarrMonitor (store : ZarrStore) (partitioner : Partitioner)
    (mpi_comm : MPIComm)
| NewNetCDFMonitor (path : string) (communicator : Communicator)
    (time_chunk_size : Z).

(** What the factory leaves behind: the calls made outside the module,
    oldest first. *)
Record FileSystem : Type := {
  outside_calls : list OutsideCall
}.

Definition Fs (A : Type) : Type := FileSystem -> FileSystem * result A.

Definition fs_bind {A B} (c : Fs A) (k : A -> Fs B) : Fs B :=
  fun fs =>
    match c fs with
    | (fs', Ok a) => k a fs'
    | (fs', Raise e) => (fs', Raise e)
    end.

#[export] Instance fs_monad : Monad Fs :=
  {| ret := fun A (a : A) (fs : FileSystem) => (fs, Ok a); bind := @fs_bind |}.

Definition fs_raise {A} (e : exn) : Fs A := fun fs => (fs, Raise e).

Definition add_outside (fs : FileSystem) (c : OutsideCall) : FileSystem :=
  {| outside_calls := outside_calls fs ++ [c] |}.

Section Model.

Context {np : ArrayModule}.

(** ** Arrays

    An array of the library is modelled by its shape together with the
    function from index tuples to entries. *)
Record ndarray : Type := {
  shape : list nat;
  item : list nat -> F
}.

Definition ndim (a : ndarray) : nat := length (shape a).

(** [full s c]: the array of shape [s] filled with [c]. *)
Definition full (s : list nat) (c : F) : ndarray :=
  {| shape := s; item := fun _ => c |}.

(** [a[idx]] for a full index tuple: the entry, if the index is within
    the array. *)
Definition entry (a : ndarray) (idx : list nat) : option F :=
  if in_bounds (shape a) idx then Some (item a idx) else None.

(** [a[:, :, start:stop]]; an array of fewer than three axes has too many
    indices. *)
Definition slice_axis2 (a : ndarray) (start stop : Z) : result ndarray :=
  match shape a with
  | n0 :: n1 :: n2 :: rest =>
      let '(lo, cnt) := slice_indices start stop n2 in
      Ok {| shape := n0 :: n1 :: cnt :: rest;
            item := fun idx => item a (shift_axis2 lo idx) |}
  | _ => Raise IndexError
  end.

(** Elementwise [a * b]. *)
Definition multiply (a b : ndarray) : result ndarray :=
  match broadcast_shapes (shape a) (shape b) with
  | Some s =>
      Ok {| shape := s;
            item := fun idx =>
              np_multiply (item a (broadcast_index (shape a) idx))
                          (item b (broadcast_index (shape b) idx)) |}
  | None => Raise (ValueError "operands could not be broadcast together")
  end.

(** [np.sum(a, axis=2)]. *)
Definition sum_axis2 (a : ndarray) : result ndarray :=
  match shape a with
  | n0 :: n1 :: n2 :: rest =>
      Ok {| shape := n0 :: n1 :: rest;
            item := fun idx =>
              np_sum (map (fun k => item a (insert_axis2 k idx)) (seq 0 n2)) |}
  | _ => Raise (ValueError "axis 2 is out of bounds")
  end.

(** ** Quantity *)

(** The check of the constructor of [pace.util.Quantity]: one dimension
    name, one origin and one extent per axis of the array. *)
Definition lengths_ok (data : ndarray) (dims : list string)
    (origin extent : list Z) : bool :=
  (length dims =? ndim data)%nat
  && (length origin =? ndim data)%nat
  && (length extent =? ndim data)%nat.

(** Modelled from the spec: [pace.util.Quantity] is declared outside this
    module.  A gridded array value with its dimension tags, the origin and
    extent of the valid sub-domain within the padded array, and its units;
    [q.metadata.origin] and [q.metadata.extent] are [origin] and
    [extent].  A Quantity exists only once its constructor has accepted
    it, so it carries the invariant that dims, origin and extent have
    equal length, the number of axes of the array. *)
Record Quantity : Type := {
  data : ndarray;
  dims : list string;
  origin : list Z;
  extent : list Z;
  units : string;
  Quantity_lengths : lengths_ok data dims origin extent = true
}.

(** Python's [str] of a tuple, given the [repr] of its items. *)
Definition tuple_str (items : list string) : string :=
  match items with
  | [] => "()"
  | [x] => "(" ++ x ++ ",)"
  | _ => "(" ++ String.concat ", " items ++ ")"
  end.

(** [repr] of a string without quotes or escapes in it. *)
Definition str_repr (s : string) : string := "'" ++ s ++ "'".

Definition received (n : nat) (desc : string) (n_dims : nat) (var : string)
  : string :=
  "received " ++ pretty n ++ " " ++ desc ++ " for " ++ pretty n_dims
  ++ " dimensions: " ++ var.

(** The message for the first of dims, origin and extent whose length is
    wrong. *)
Definition lengths_error (data : ndarray) (dims : list string)
    (origin extent : list Z) : string :=
  if negb (length dims =? ndim data)%nat
  then received (length dims) "dimension names" (ndim data)
         (tuple_str (map str_repr dims))
  else if negb (length origin =? ndim data)%nat
  then received (length origin) "origins" (ndim data)
         (tuple_str (map pretty origin))
  else received (length extent) "extents" (ndim data)
         (tuple_str (map pretty extent)).

(** Modelled from the spec: the constructor
    [pace.util.Quantity(data, dims=, origin=, extent=, units=)], which
    enforces the invariant: it raises a ValueError when dims, origin or
    extent has another length than the array has axes, checked in that
    order, with the message
    "received <length> <what> for <axes> dimensions: <tuple>". *)
Definition Quantity_init (data : ndarray) (dims : list string)
    (origin extent : list Z) (units : string) : result Quantity :=
  match Sumbool.sumbool_of_bool (lengths_ok data dims origin extent) with
  | left H =>
      Ok {| data := data; dims := dims; origin := origin; extent := extent;
            units := units; Quantity_lengths := H |}
  | right _ => Raise (ValueError (lengths_error data dims origin extent))
  end.

(** The invariant the spec gives for a Quantity: dims, origin and extent
    have equal length. *)
Definition quantity_invariant (q : Quantity) : bool :=
  (length (dims q) =? length (origin q))%nat
  && (length (origin q) =? length (extent q))%nat.

(** A Quantity that also describes a sub-domain within its array. *)
Definition quantity_wf (q : Quantity) : bool :=
  (length (dims q) =? ndim (data q))%nat
  && subdomain_ok (shape (data q)) (origin q) (extent q).

(** ** Driver state, backend monitor and warnings *)

(** Modelled from the spec: [DriverState] is declared in [.state], outside
    this module.  It exposes two named sub-states, each a mapping from
    variable name to a gridded quantity; [getattr] on a sub-state is a
    lookup in that mapping. *)
Record DriverState : Type := {
  dycore_state : gmap string Quantity;
  physics_state : gmap string Quantity
}.

(** The values of the dictionary handed to the monitor. *)
Inductive Value : Type :=
| VTime (t : TimeValue)
| VQuantity (q : Quantity).

(** The calls received by the backend monitor. *)
Inductive MonitorCall : Type :=
| MonitorStore (state : gmap string Value)
| MonitorStoreConstant (state : gmap string Quantity)
| MonitorCleanup.

(** What a method call leaves behind: the calls made on the monitor and
    the warnings issued, oldest first. *)
Record World : Type := {
  monitor_calls : list MonitorCall;
  warnings : list string
}.

Definition world0 : World := {| monitor_calls := []; warnings := [] |}.

Definition Py (A : Type) : Type := World -> World * result A.

Definition py_bind {A B} (c : Py A) (k : A -> Py B) : Py B :=
  fun w =>
    match c w with
    | (w', Ok a) => k a w'
    | (w', Raise e) => (w', Raise e)
    end.

#[export] Instance py_monad : Monad Py :=
  {| ret := fun A (a : A) (w : World) => (w, Ok a); bind := @py_bind |}.

(** A computation without side effects. *)
Definition pure {A} (r : result A) : Py A := fun w => (w, r).

Definition add_warning (w : World) (msg : string) : World :=
  {| monitor_calls := monitor_calls w; warnings := warnings w ++ [msg] |}.

Definition warnings_warn (msg : string) : Py unit :=
  fun w => (add_warning w msg, Ok tt).

Definition add_call (w : World) (c : MonitorCall) : World :=
  {| monitor_calls := monitor_calls w ++ [c]; warnings := warnings w |}.

(** The world after further monitor calls and warnings. *)
Definition extend (w : World) (calls : list MonitorCall) (ws : list string)
  : World :=
  {| monitor_calls := monitor_calls w ++ calls; warnings := warnings w ++ ws |}.

Definition getattr (obj : gmap string Quantity) (name : string)
  : result Quantity :=
  match obj !! name with
  | Some q => Ok q
  | None => Raise (AttributeError name)
  end.

(** [try: body except AttributeError: handler]. *)
Definition try_except_AttributeError {A} (body handler : result A) : result A :=
  match body with
  | Raise (AttributeError _) => handler
  | r => r
  end.

(** The lookup of a raw name: the dycore state first, the physics state
    when the dycore state has no such attribute. *)
Definition lookup_raw (state : DriverState) (name : string) : result Quantity :=
  try_except_AttributeError
    (getattr (dycore_state state) name)
    (getattr (physics_state state) name).

(** The body of the loop of [store] over the raw names. *)
Definition raw_body (state : DriverState) (name : string)
    (monitor_state : gmap string Value) : result (gmap string Value) :=
  quantity <- lookup_raw state name ;;
  ret (<[name := VQuantity quantity]> monitor_state).

(** One round of a loop that stores under [name] the quantity [f name]. *)
Definition insert_computed (f : string -> result Quantity) (name : string)
    (d : gmap string Value) : result (gmap string Value) :=
  q <- f name ;; ret (<[name := VQuantity q]> d).

(** [d.update(e)]: the entries of [e] replace those of [d]. *)
Definition dict_update (d e : gmap string Value) : gmap string Value := e ∪ d.

(** Modelled from the spec: [GridData] is declared outside this module; it
    exposes the latitude and longitude fields as quantities. *)
Record GridData : Type := {
  lat : Quantity;
  lon : Quantity
}.

(** A call made by the driver on its diagnostics object. *)
Inductive Call : Type :=
| CallStore (time : TimeValue) (state : DriverState)
| CallStoreGrid (grid_data : GridData)
| CallCleanup.

End Model.

(** ** An array library: binary64 *)

(** IEEE 754 double precision with rounding to nearest even, and sums
    accumulated from left to right starting at +0, as numpy adds fewer
    than eight values.  The samples below live in this library. *)
Definition f64_multiply : spec_float -> spec_float -> spec_float := SFmul 53 1024.
Definition f64_add : spec_float -> spec_float -> spec_float := SFadd 53 1024.

Definition f64_sum (l : list spec_float) : spec_float :=
  fold_left f64_add l (S754_zero false).

#[export] Instance binary64 : ArrayModule :=
  {| F := spec_float; np_multiply := f64_multiply; np_sum := f64_sum |}.

(** The double nearest to [m * 2 ^ e]. *)
Definition f64 (m e : Z) : spec_float := binary_normalize 53 1024 m e false.

(** The double written 0.1. *)
Definition f64_tenth : spec_float := S754_finite false 7205759403792794 (-56).

(** ** Sample data *)

(** A 2x2x3 mixing ratio filled with 1/2, without halo. *)
Definition qv_sample : Quantity :=
  {| data := full [2; 2; 3]%nat (f64 1 (-1));
     dims := ["x"; "y"; "z"];
     origin := [0; 0; 0]%Z;
     extent := [2; 2; 3]%Z;
     units := "kg/kg";
     Quantity_lengths := eq_refl |}.

(** The pressure thickness on the same grid, filled with 4. *)
Definition delp_sample : Quantity :=
  {| data := full [2; 2; 3]%nat (f64 4 0);
     dims := ["x"; "y"; "z"];
     origin := [0; 0; 0]%Z;
     extent := [2; 2; 3]%Z;
     units := "Pa";
     Quantity_lengths := eq_refl |}.

(** A two-dimensional surface field. *)
Definition phis_sample : Quantity :=
  {| data := full [2; 2]%nat (f64 1 0);
     dims := ["x"; "y"];
     origin := [0; 0]%Z;
     extent := [2; 2]%Z;
     units := "m**2/s**2";
     Quantity_lengths := eq_refl |}.

(** Fields whose vertical axis is not the third one. *)
Definition transposed_sample : Quantity :=
  {| data := full [3; 2; 2]%nat (f64 1 0);
     dims := ["z"; "y"; "x"];
     origin := [0; 0; 0]%Z;
     extent := [3; 2; 2]%Z;
     units := "kg/kg";
     Quantity_lengths := eq_refl |}.

(** A 3x3x4 field with a one-point halo on every side of the horizontal
    axes and a vertical sub-domain of two levels starting at level 1; the
    entry at (i, j, k) is i + 10 j + 100 k. *)
Definition ramp (idx : list nat) : spec_float :=
  match idx with
  | [i; j; k] => f64 (Z.of_nat (i + 10 * j + 100 * k)) 0
  | _ => f64 0 0
  end.

Definition ramp_array : ndarray := {| shape := [3; 3; 4]%nat; item := ramp |}.

Definition halo_sample : Quantity :=
  {| data := ramp_array;
     dims := ["x"; "y"; "z"];
     origin := [1; 1; 1]%Z;
     extent := [1; 1; 2]%Z;
     units := "kg/kg";
     Quantity_lengths := eq_refl |}.

Definition halo_delp_sample : Quantity :=
  {| data := full [3; 3; 4]%nat (f64 2 0);
     dims := ["x"; "y"; "z"];
     origin := [0; 0; 0]%Z;
     extent := [3; 3; 4]%Z;
     units := "Pa";
     Quantity_lengths := eq_refl |}.

(** Four-dimensional fields: a trailing axis after the vertical one. *)
Definition species_sample : Quantity :=
  {| data := full [2; 2; 3; 2]%nat (f64 1 0);
     dims := ["x"; "y"; "z"; "n"];
     origin := [0; 0; 0; 0]%Z;
     extent := [2; 2; 3; 2]%Z;
     units := "kg/kg";
     Quantity_lengths := eq_refl |}.

Definition species_delp_sample : Quantity :=
  {| data := full [2; 2; 3; 2]%nat (f64 4 0);
     dims := ["x"; "y"; "z"; "n"];
     origin := [0; 0; 0; 0]%Z;
     extent := [2; 2; 3; 2]%Z;
     units := "Pa";
     Quantity_lengths := eq_refl |}.

(** The halo sample with an empty vertical sub-domain. *)
Definition empty_column_sample : Quantity :=
  {| data := ramp_array;
     dims := ["x"; "y"; "z"];
     origin := [1; 1; 1]%Z;
     extent := [1; 1; 0]%Z;
     units := "kg/kg";
     Quantity_lengths := eq_refl |}.

(** The halo sample with a vertical sub-domain of five levels from level
    2, in an array of four levels. *)
Definition overlong_sample : Quantity :=
  {| data := ramp_array;
     dims := ["x"; "y"; "z"];
     origin := [1; 1; 2]%Z;
     extent := [1; 1; 5]%Z;
     units := "kg/kg";
     Quantity_lengths := eq_refl |}.

(** An array that agrees with [a] on the levels 1 and 2 and holds 99 on
    the others. *)
Definition outside_levels_changed (a : ndarray) : ndarray :=
  {| shape := shape a;
     item := fun idx =>
       match idx with
       | i :: j :: k :: t =>
           if ((1 <=? k) && (k <? 3))%nat then item a idx else f64 99 0
       | _ => item a idx
       end |}.

(** The halo sample and its pressure thickness with other entries outside
    the levels 1 and 2. *)
Definition halo_changed_sample : Quantity :=
  {| data := outside_levels_changed ramp_array;
     dims := ["x"; "y"; "z"];
     origin := [1; 1; 1]%Z;
     extent := [1; 1; 2]%Z;
     units := "kg/kg";
     Quantity_lengths := eq_refl |}.

Definition halo_delp_changed_sample : Quantity :=
  {| data := outside_levels_changed (full [3; 3; 4]%nat (f64 2 0));
     dims := ["x"; "y"; "z"];
     origin := [0; 0; 0]%Z;
     extent := [3; 3; 4]%Z;
     units := "Pa";
     Quantity_lengths := eq_refl |}.

(** A pressure thickness holding the single column 1, 2, 3. *)
Definition column_delp_sample : Quantity :=
  {| data := {| shape := [1; 1; 3]%nat;
                item := fun idx =>
                  match idx with
                  | [_; _; k] => f64 (Z.of_nat (S k)) 0
                  | _ => f64 0 0
                  end |};
     dims := ["x"; "y"; "z"];
     origin := [0; 0; 0]%Z;
     extent := [1; 1; 3]%Z;
     units := "Pa";
     Quantity_lengths := eq_refl |}.

(** A pressure thickness on a wider grid. *)
Definition wide_delp_sample : Quantity :=
  {| data := full [3; 2; 3]%nat (f64 4 0);
     dims := ["x"; "y"; "z"];
     origin := [0; 0; 0]%Z;
     extent := [3; 2; 3]%Z;
     units := "Pa";
     Quantity_lengths := eq_refl |}.

(** The same metadata as [qv_sample], other entries and units. *)
Definition qv_other_sample : Quantity :=
  {| data := full [2; 2; 3]%nat (f64 7 0);
     dims := ["x"; "y"; "z"];
     origin := [0; 0; 0]%Z;
     extent := [2; 2; 3]%Z;
     units := "g/kg";
     Quantity_lengths := eq_refl |}.

(** One column of six levels filled with 0.1, and its pressure thickness
    filled with 1. *)
Definition tenth_sample : Quantity :=
  {| data := full [1; 1; 6]%nat f64_tenth;
     dims := ["x"; "y"; "z"];
     origin := [0; 0; 0]%Z;
     extent := [1; 1; 6]%Z;
     units := "kg/kg";
     Quantity_lengths := eq_refl |}.

Definition unit_delp_sample : Quantity :=
  {| data := full [1; 1; 6]%nat (f64 1 0);
     dims := ["x"; "y"; "z"];
     origin := [0; 0; 0]%Z;
     extent := [1; 1; 6]%Z;
     units := "Pa";
     Quantity_lengths := eq_refl |}.

Definition dycore_sample : gmap string Quantity :=
  <["u" := qv_sample]> (<["qv" := qv_sample]> (<["phis" := phis_sample]>
    (<["species" := species_sample]> {[ "delp" := delp_sample ]}))).

Definition physics_sample : gmap string Quantity :=
  {[ "v" := qv_sample ]}.

Definition state_sample : DriverState :=
  {| dycore_state := dycore_sample; physics_state := physics_sample |}.

Definition t0 : TimeValue := Datetime 0.

(** The configuration of the end-to-end scenario. *)
Definition diag_sample : MonitorDiagnostics :=
  {| md_names := ["u"; "v"]; md_derived_names := ["column_integrated_qv"] |}.


(** An unsupported derived name between two supported ones. *)
Definition diag_unsupported : MonitorDiagnostics :=
  {| md_names := [];
     md_derived_names := ["column_integrated_qv"; "not_a_real_diagnostic";
                          "column_integrated_u"] |}.

(** A derived name whose tracer is not on the dycore state. *)
Definition diag_missing_tracer : MonitorDiagnostics :=
  {| md_names := ["u"]; md_derived_names := ["column_integrated_missing"] |}.

(** The column integral of a two-dimensional field of the dycore state. *)
Definition diag_surface : MonitorDiagnostics :=
  {| md_names := ["u"; "v"]; md_derived_names := ["column_integrated_phis"] |}.

(** A state with attributes named "time" and "column_integrated_qv", and a
    configuration asking for both as raw names. *)
Definition state_collide : DriverState :=
  {| dycore_state :=
       <["time" := phis_sample]>
         (<["column_integrated_qv" := phis_sample]> dycore_sample);
     physics_state := physics_sample |}.

Definition diag_collide : MonitorDiagnostics :=
  {| md_names := ["time"; "column_integrated_qv"];
     md_derived_names := ["column_integrated_qv"] |}.

(** Raw names with a supported and an unsupported derived name. *)
Definition diag_mixed : MonitorDiagnostics :=
  {| md_names := ["u"; "v"];
     md_derived_names := ["not_a_real_diagnostic"; "column_integrated_qv"] |}.

(** A communicator and a filesystem on which nothing was called yet. *)
Definition comm_sample : Communicator :=
  {| partitioner := PartitionerHandle 0; comm := MPICommHandle 0 |}.

Definition fs_sample : FileSystem := {| outside_calls := [] |}.

(** The configuration of the end-to-end scenario, as the constructor
    returns it. *)
Definition config_sample : DiagnosticsConfig :=
  {| path := Some "/tmp/out"; output_format := "zarr"; time_chunk_size := 1;
     names := ["u"; "v"]; derived_names := ["column_integrated_qv"] |}.

(** The default configuration. *)
Definition config_default : DiagnosticsConfig :=
  {| path := None; output_format := "zarr"; time_chunk_size := 1;
     names := []; derived_names := [] |}.

(** A backend that accepts every call, and one that refuses every
    timestep record. *)
Definition backend_accepts (history : list MonitorCall) (c : MonitorCall)
  : result unit := Ok tt.

Definition backend_refuses (history : list MonitorCall) (c : MonitorCall)
  : result unit :=
  match c with
  | MonitorStore _ => Raise (OtherException "OSError" "No space left on device")
  | _ => Ok tt
  end.

(** An outside where the directory is absent and every call succeeds, and
    one where the path exists as a regular file, so that the directory
    store refuses it. *)
Definition outside_fresh (history : list OutsideCall) (c : OutsideCall)
  : result bool := Ok false.

Definition outside_regular_file (history : list OutsideCall) (c : OutsideCall)
  : result bool :=
  match c with
  | FsExists _ => Ok true
  | NewDirectoryStore _ =>
      Raise (OtherException "FSPathExistNotDir" "path exists but is not a directory")
  | _ => Ok false
  end.

Section Driver.

Context {np : ArrayModule}.

(** The designated vertical axis tag, [pace.util.Z_DIM], a constant
    declared outside this module. *)
Variable Z_DIM : string.

(** The backend monitor, declared outside this module: whether a call on
    it returns or raises, given the calls it has received before. *)
Variable monitor_response : list MonitorCall -> MonitorCall -> result unit.

(** The filesystem, the zarr storage module and the constructors of the
    monitors, declared outside this module: whether a call returns or
    raises, given the calls made before; the value returned matters for
    [exists] only. *)
Variable outside_response : list OutsideCall -> OutsideCall -> result bool.

(** ** ColumnIntegrator *)

Definition py_assert (b : bool) : result unit :=
  if b then Ok tt else Raise AssertionError.

Definition _compute_column_integral (name : string) (q_in delp : Quantity)
  : result Quantity :=
  py_assert (2 <? length (dims q_in))%nat ;;
  d2 <- getitem (dims q_in) 2 ;;
  if negb (String.eqb d2 Z_DIM)
  then Raise (NotImplementedError
                "this function assumes the z-dimension is the third dimension")
  else
    o2 <- getitem (origin q_in) 2 ;;
    e2 <- getitem (extent q_in) 2 ;;
    let k_start := o2 in
    let k_stop := (o2 + e2)%Z in
    q_k <- slice_axis2 (data q_in) k_start k_stop ;;
    delp_k <- slice_axis2 (data delp) k_start k_stop ;;
    prod <- multiply q_k delp_k ;;
    total <- sum_axis2 prod ;;
    e0 <- getitem (extent q_in) 0 ;;
    e1 <- getitem (extent q_in) 1 ;;
    Quantity_init total
      (take 2 (dims q_in) ++ drop 3 (dims q_in))
      (take 2 (origin q_in))
      [e0; e1]
      "kg/m**2".

(** ** MonitorDiagnostics *)

(** A call on the backend monitor: it is made, and it returns or raises
    as the backend decides. *)
Definition monitor_call (c : MonitorCall) : Py unit :=
  fun w => (add_call w c, monitor_response (monitor_calls w) c).

(** The body of the loop of [_get_derived_state]. *)
Definition derived_body (state : DriverState) (name : string)
    (output : gmap string Value) : Py (gmap string Value) :=
  if startswith name column_integrated_
  then
    let tracer := str_from (String.length column_integrated_) name in
    q <- pure (q_in <- getattr (dycore_state state) tracer ;;
               delp <- getattr (dycore_state state) "delp" ;;
               _compute_column_integral name q_in delp) ;;
    ret (<[name := VQuantity q]> output)
  else
    warnings_warn (unsupported_msg name) ;;
    ret output.

(** The value stored for a supported derived name. *)
Definition column_integrated (state : DriverState) (name : string)
  : result Quantity :=
  q_in <- getattr (dycore_state state)
            (str_from (String.length column_integrated_) name) ;;
  delp <- getattr (dycore_state state) "delp" ;;
  _compute_column_integral name q_in delp.

Definition _get_derived_state (self : MonitorDiagnostics) (state : DriverState)
  : Py (gmap string Value) :=
  let output : gmap string Value := ∅ in
  if (0 <? length (md_derived_names self))%nat
  then for_each (md_derived_names self) (derived_body state) output
  else ret output.

(** [MonitorDiagnostics.store].  The [dace_inhibitor] decorator only keeps
    the method out of orchestration and leaves its behaviour as it is. *)
Definition store (self : MonitorDiagnostics) (time : TimeValue)
    (state : DriverState) : Py unit :=
  let monitor_state : gmap string Value := {[ "time" := VTime time ]} in
  monitor_state <- pure (for_each (md_names self) (raw_body state) monitor_state) ;;
  derived_state <- _get_derived_state self state ;;
  let monitor_state := dict_update monitor_state derived_state in
  monitor_call (MonitorStore monitor_state).

Definition store_grid (self : MonitorDiagnostics) (grid_data : GridData)
  : Py unit :=
  let zarr_grid : gmap string Quantity :=
    <["lon" := lon grid_data]> {[ "lat" := lat grid_data ]} in
  monitor_call (MonitorStoreConstant zarr_grid).

Definition cleanup (self : MonitorDiagnostics) : Py unit :=
  monitor_call MonitorCleanup.

(** ** The Diagnostics interface and its factory *)

(** A call outside the module: it is made, and it returns or raises as
    the outside decides. *)
Definition outside (c : OutsideCall) : Fs bool :=
  fun fs => (add_outside fs c, outside_response (outside_calls fs) c).

(** [zarr_storage.DirectoryStore(path=p)], where the module global
    [zarr_storage] is [None] when the import of [zarr.storage] failed. *)
Definition zarr_DirectoryStore (zarr_storage : bool) (p : string) : Fs ZarrStore :=
  if zarr_storage
  then outside (NewDirectoryStore p) ;; ret (DirectoryStore p)
  else fs_raise (AttributeError "DirectoryStore").

Definition diagnostics_factory (zarr_storage : bool) (self : DiagnosticsConfig)
    (communicator : Communicator) : Fs Diagnostics :=
  match path self with
  | None => ret NullDiagnostics
  | Some p =>
      outside (GetFs p) ;;
      present <- outside (FsExists p) ;;
      (if negb present then outside (FsMakedirs p) ;; ret tt else ret tt) ;;
      monitor <-
        (if String.eqb (output_format self) "zarr"
         then
           store <- zarr_DirectoryStore zarr_storage p ;;
           outside (NewZarrMonitor store (partitioner communicator)
                      (comm communicator)) ;;
           ret (ZarrMonitor store (partitioner communicator) (comm communicator))
         else if String.eqb (output_format self) "netcdf"
         then
           outside (NewNetCDFMonitor p communicator (time_chunk_size self)) ;;
           ret (NetCDFMonitor p communicator (time_chunk_size self))
         else fs_raise
                (ValueError ("output_format must be one of 'zarr' or 'netcdf', got "
                             ++ output_format self))) ;;
      ret (Monitored monitor
             {| md_names := names self;
                md_derived_names := derived_names self |})
  end.

(** The calls of the interface, dispatched on the variant. *)
Definition Diagnostics_store (d : Diagnostics) (time : TimeValue)
    (state : DriverState) : Py unit :=
  match d with
  | NullDiagnostics => ret tt
  | Monitored _ self => store self time state
  end.

Definition Diagnostics_store_grid (d : Diagnostics) (grid_data : GridData)
  : Py unit :=
  match d with
  | NullDiagnostics => ret tt
  | Monitored _ self => store_grid self grid_data
  end.

Definition Diagnostics_cleanup (d : Diagnostics) : Py unit :=
  match d with
  | NullDiagnostics => ret tt
  | Monitored _ self => cleanup self
  end.

Definition do_call (d : Diagnostics) (c : Call) : Py unit :=
  match c with
  | CallStore time state => Diagnostics_store d time state
  | CallStoreGrid grid_data => Diagnostics_store_grid d grid_data
  | CallCleanup => Diagnostics_cleanup d
  end.

(** The calls of a run, in order, stopping at the first that raises. *)
Definition run_calls (d : Diagnostics) (calls : list Call) : Py unit :=
  for_each calls (fun c _ => do_call d c) tt.

(** The column of the products that the formula
    [sum over k in [o2, o2 + e2) of q.data[i, j, k] * delp.data[i, j, k]]
    adds up at the horizontal index (i, j): the entries are read by plain
    indexing, so the column is undefined as soon as one of them lies
    outside its array. *)
Definition formula_column (q delp : Quantity) (o2 e2 : Z) (i j : nat)
  : option (list F) :=
  mapM (fun k =>
          match entry (data q) [i; j; k], entry (data delp) [i; j; k] with
          | Some x, Some y => Some (np_multiply x y)
          | _, _ => None
          end)
       (seq (Z.to_nat o2) (Z.to_nat e2)).

(** * Properties *)

(** ** Configuration *)

Lemma str_in_formats fmt :
  str_in fmt ["zarr"; "netcdf"] = true <-> fmt = "zarr" \/ fmt = "netcdf".
Proof.
  unfold str_in; cbn [existsb].
  rewrite !orb_true_iff, !String.eqb_eq. intuition discriminate.
Qed.

(** C5: construction raises a ValueError when names are requested without
    a path, and when the output format is neither "zarr" nor "netcdf",
    whatever the other fields are; the error is the result of the
    constructor itself, so no configuration object exists afterwards. *)
Theorem config_invalid_raises (p : option string) (fmt : string) (tcs : Z)
    (ns ds : list string) :
  ((ns <> [] \/ ds <> []) /\ p = None) \/ (fmt <> "zarr" /\ fmt <> "netcdf") ->
  exists msg, DiagnosticsConfig_init p fmt tcs ns ds = Raise (ValueError msg).
Proof.
  intros H. unfold DiagnosticsConfig_init, __post_init__. simpl.
  destruct (((0 <? length ns)%nat || (0 <? length ds)%nat) && is_None p) eqn:E1.
  - eexists; reflexivity.
  - destruct (str_in fmt ["zarr"; "netcdf"]) eqn:E2; simpl.
    + exfalso. apply str_in_formats in E2.
      destruct H as [[Hn ->] | [H1 H2]]; [| tauto].
      simpl in E1. rewrite andb_true_r in E1. apply orb_false_elim in E1.
      destruct E1 as [En Ed].
      destruct Hn as [Hn | Hn]; [destruct ns | destruct ds];
        try congruence; discriminate.
    + eexists; reflexivity.
Qed.

(** C4, amended: with both name lists empty and a recognised output
    format, construction succeeds whatever the path and the chunk size
    are. *)
Theorem config_empty_names_ok (p : option string) (fmt : string) (tcs : Z) :
  fmt = "zarr" \/ fmt = "netcdf" ->
  DiagnosticsConfig_init p fmt tcs [] [] =
    Ok {| path := p; output_format := fmt; time_chunk_size := tcs;
          names := []; derived_names := [] |}.
Proof.
  intros H. apply str_in_formats in H.
  unfold DiagnosticsConfig_init, __post_init__. simpl. rewrite H. reflexivity.
Qed.

Lemma length_pos_nil {A} (l : list A) : (0 <? length l)%nat = false <-> l = [].
Proof. destruct l; split; intros H; try reflexivity; discriminate. Qed.

Lemma requested_without_path (p : option string) (ns ds : list string) :
  ((0 <? length ns)%nat || (0 <? length ds)%nat) && is_None p = false
  <-> (ns = [] /\ ds = []) \/ p <> None.
Proof.
  rewrite andb_false_iff, orb_false_iff, !length_pos_nil.
  destruct p; simpl; split.
  - intros _. right. discriminate.
  - intros _. right. reflexivity.
  - intros [H | H]; [left; exact H | discriminate].
  - intros [H | H]; [left; exact H | contradiction].
Qed.

(** When the constructor returns, and what. *)
Lemma config_init_accepts (p : option string) (fmt : string) (tcs : Z)
    (ns ds : list string) (cfg : DiagnosticsConfig) :
  DiagnosticsConfig_init p fmt tcs ns ds = Ok cfg
  <-> ((ns = [] /\ ds = []) \/ p <> None)
      /\ (fmt = "zarr" \/ fmt = "netcdf")
      /\ cfg = {| path := p; output_format := fmt; time_chunk_size := tcs;
                  names := ns; derived_names := ds |}.
Proof.
  unfold DiagnosticsConfig_init, __post_init__. simpl.
  rewrite <- requested_without_path, <- str_in_formats.
  destruct (((0 <? length ns)%nat || (0 <? length ds)%nat) && is_None p);
    [split; [discriminate | intros (H & _); discriminate] |].
  destruct (str_in fmt ["zarr"; "netcdf"]); simpl.
  - split; [intros [= <-]; auto | intros (_ & _ & ->); reflexivity].
  - split; [discriminate | intros (_ & H & _); discriminate].
Qed.

(** X1: the constructor returns a configuration exactly when no name is
    requested without a path and the format is "zarr" or "netcdf"; the
    configuration then holds the five fields as given. *)
Theorem config_init_ok_iff (p : option string) (fmt : string) (tcs : Z)
    (ns ds : list string) (cfg : DiagnosticsConfig) :
  DiagnosticsConfig_init p fmt tcs ns ds = Ok cfg
  <-> ((ns = [] /\ ds = []) \/ p <> None)
      /\ (fmt = "zarr" \/ fmt = "netcdf")
      /\ cfg = {| path := p; output_format := fmt; time_chunk_size := tcs;
                  names := ns; derived_names := ds |}.
Proof. apply config_init_accepts. Qed.

(** X2: the path check comes first: names requested without a path give
    the path message whatever the format is; when the path check passes,
    an unrecognised format gives the message that ends with the format
    received. *)
Theorem config_init_error (p : option string) (fmt : string) (tcs : Z)
    (ns ds : list string) :
  ((ns <> [] \/ ds <> []) -> p = None ->
     DiagnosticsConfig_init p fmt tcs ns ds =
       Raise (ValueError
                "DiagnosticsConfig.path must be given to enable diagnostics"))
  /\ (((ns = [] /\ ds = []) \/ p <> None) ->
      fmt <> "zarr" -> fmt <> "netcdf" ->
      DiagnosticsConfig_init p fmt tcs ns ds =
        Raise (ValueError
                 ("output_format must be one of 'zarr' or 'netcdf', got "
                  ++ fmt))).
Proof.
  unfold DiagnosticsConfig_init, __post_init__. simpl. split.
  - intros Hreq ->.
    destruct (((0 <? length ns)%nat || (0 <? length ds)%nat) && is_None None)
      eqn:E; [reflexivity |].
    apply requested_without_path in E as [[-> ->] | E]; [| contradiction].
    destruct Hreq; contradiction.
  - intros Hpath H1 H2. apply requested_without_path in Hpath.
    rewrite Hpath.
    destruct (str_in fmt ["zarr"; "netcdf"]) eqn:E; [| reflexivity].
    apply str_in_formats in E. tauto.
Qed.

(** ** Arrays *)

Ltac py_step :=
  cbn [bind ret result_monad result_bind py_monad py_bind pure py_assert].

Tactic Notation "py_step_in" hyp(H) :=
  cbn [bind ret result_monad result_bind py_monad py_bind pure py_assert] in H.

Lemma getitem_nth {A} (t : list A) (i : nat) (x : A) :
  nth_error t i = Some x -> getitem t i = Ok x.
Proof. unfold getitem. intros ->. reflexivity. Qed.

Lemma broadcast_aligned_same (s : list nat) : broadcast_aligned s s = Some s.
Proof.
  induction s as [| a s IH]; [reflexivity |].
  cbn [broadcast_aligned]. rewrite IH, Nat.eqb_refl. reflexivity.
Qed.

Lemma broadcast_shapes_same (s : list nat) : broadcast_shapes s s = Some s.
Proof.
  unfold broadcast_shapes.
  rewrite broadcast_aligned_same, rev_involutive. reflexivity.
Qed.

Lemma broadcast_axis_lt (n i : nat) : (i < n)%nat -> broadcast_axis n i = i.
Proof.
  unfold broadcast_axis. intros H.
  destruct (Nat.eqb_spec n 1); [lia | reflexivity].
Qed.

Lemma broadcast_index_id (s idx : list nat) :
  Forall2 lt idx s -> broadcast_index s idx = idx.
Proof.
  intros H. unfold broadcast_index.
  rewrite (Forall2_length _ _ _ H), Nat.sub_diag, drop_0.
  induction H as [| i n idx s Hlt _ IH]; [reflexivity |].
  cbn [zip_with]. rewrite IH, broadcast_axis_lt by assumption. reflexivity.
Qed.

Lemma broadcast_shapes_column (n0 n1 c : nat) :
  broadcast_shapes [n0; n1; c] [1; 1; c]%nat = Some [n0; n1; c].
Proof.
  unfold broadcast_shapes. cbn [rev app broadcast_aligned].
  destruct (n1 =? 1)%nat; destruct (n0 =? 1)%nat; cbn;
    rewrite Nat.eqb_refl; reflexivity.
Qed.

Lemma slice_indices_within (n : nat) (o e : Z) :
  within_axis n o e = true ->
  slice_indices o (o + e) n = (Z.to_nat o, Z.to_nat e).
Proof.
  unfold within_axis, slice_indices, clip_bound. intros H.
  apply andb_prop in H as [H He]. apply andb_prop in H as [Ho H0].
  apply Z.leb_le in Ho, H0, He.
  destruct (Z.ltb_spec o 0); [lia |].
  destruct (Z.ltb_spec (o + e) 0); [lia |].
  f_equal; f_equal; lia.
Qed.

Lemma slice_indices_clipped (n : nat) (o e : Z) :
  (0 <= o)%Z -> (0 <= e)%Z ->
  slice_indices o (o + e) n =
    (Nat.min (Z.to_nat o) n,
     (Nat.min (Z.to_nat o + Z.to_nat e) n - Nat.min (Z.to_nat o) n)%nat).
Proof.
  intros Ho He. unfold slice_indices, clip_bound.
  destruct (Z.ltb_spec o 0); [lia |].
  destruct (Z.ltb_spec (o + e) 0); [lia |].
  f_equal; lia.
Qed.

Lemma map_seq_from {A} (f : nat -> A) (lo s cnt : nat) :
  map (fun k => f (lo + k)%nat) (seq s cnt) = map f (seq (lo + s) cnt).
Proof.
  revert s. induction cnt as [| cnt IH]; intros s; [reflexivity |].
  cbn [seq map]. rewrite IH, Nat.add_succ_r. reflexivity.
Qed.

Lemma map_seq_from0 {A} (f : nat -> A) (lo cnt : nat) :
  map (fun k => f (lo + k)%nat) (seq 0 cnt) = map f (seq lo cnt).
Proof. rewrite map_seq_from, Nat.add_0_r. reflexivity. Qed.

Lemma subdomain_ok_3d (n0 n1 n2 : nat) (os es : list Z) :
  subdomain_ok [n0; n1; n2] os es = true ->
  exists o0 o1 o2 e0 e1 e2 : Z,
    os = [o0; o1; o2] /\ es = [e0; e1; e2]
    /\ within_axis n0 o0 e0 = true /\ within_axis n1 o1 e1 = true
    /\ within_axis n2 o2 e2 = true.
Proof.
  intros H.
  destruct os as [| o0 [| o1 [| o2 [| ? ?]]]];
    destruct es as [| e0 [| e1 [| e2 [| ? ?]]]];
    cbn [subdomain_ok] in H; rewrite ?andb_false_r in H; try discriminate H.
  rewrite andb_true_r in H.
  apply andb_prop in H as [H0 H]. apply andb_prop in H as [H1 H2].
  exists o0, o1, o2, e0, e1, e2. auto.
Qed.

(** ** Quantity *)

Lemma lengths_ok_iff (a : ndarray) (ds : list string) (os es : list Z) :
  lengths_ok a ds os es = true
  <-> length ds = ndim a /\ length os = ndim a /\ length es = ndim a.
Proof.
  unfold lengths_ok. rewrite !andb_true_iff, !Nat.eqb_eq. tauto.
Qed.

Lemma quantity_lengths (q : Quantity) :
  length (dims q) = ndim (data q) /\ length (origin q) = ndim (data q)
  /\ length (extent q) = ndim (data q).
Proof. apply lengths_ok_iff. apply Quantity_lengths. Qed.

Lemma quantity_invariant_holds (q : Quantity) : quantity_invariant q = true.
Proof.
  destruct (quantity_lengths q) as (H1 & H2 & H3).
  unfold quantity_invariant. rewrite H1, H2, H3, Nat.eqb_refl. reflexivity.
Qed.

Lemma list_length_3 {A} (l : list A) :
  length l = 3%nat -> exists a b c, l = [a; b; c].
Proof.
  destruct l as [| a [| b [| c [| ? ?]]]]; try discriminate. eauto.
Qed.

Lemma quantity_3d (q : Quantity) (n0 n1 n2 : nat) :
  shape (data q) = [n0; n1; n2] ->
  exists d0 d1 d2 o0 o1 o2 e0 e1 e2,
    dims q = [d0; d1; d2] /\ origin q = [o0; o1; o2]
    /\ extent q = [e0; e1; e2].
Proof.
  intros Hs. destruct (quantity_lengths q) as (H1 & H2 & H3).
  unfold ndim in *. rewrite Hs in *.
  apply list_length_3 in H1 as (d0 & d1 & d2 & ->).
  apply list_length_3 in H2 as (o0 & o1 & o2 & ->).
  apply list_length_3 in H3 as (e0 & e1 & e2 & ->).
  eauto 12.
Qed.

Lemma Quantity_init_Ok (a : ndarray) (ds : list string) (os es : list Z)
    (u : string) :
  lengths_ok a ds os es = true ->
  exists r, Quantity_init a ds os es u = Ok r
            /\ data r = a /\ dims r = ds /\ origin r = os /\ extent r = es
            /\ units r = u.
Proof.
  intros H. unfold Quantity_init.
  destruct (Sumbool.sumbool_of_bool (lengths_ok a ds os es)) as [H' | H'];
    [| congruence].
  eexists. split; [reflexivity |]. repeat split.
Qed.

Lemma Quantity_init_inv (a : ndarray) (ds : list string) (os es : list Z)
    (u : string) (r : Quantity) :
  Quantity_init a ds os es u = Ok r ->
  data r = a /\ dims r = ds /\ origin r = os /\ extent r = es /\ units r = u.
Proof.
  unfold Quantity_init.
  destruct (Sumbool.sumbool_of_bool (lengths_ok a ds os es)); [| discriminate].
  intros [= <-]. repeat split.
Qed.

Lemma Quantity_init_Raise (a : ndarray) (ds : list string) (os es : list Z)
    (u : string) :
  lengths_ok a ds os es = false ->
  Quantity_init a ds os es u = Raise (ValueError (lengths_error a ds os es)).
Proof.
  intros H. unfold Quantity_init.
  destruct (Sumbool.sumbool_of_bool (lengths_ok a ds os es)); [congruence |].
  reflexivity.
Qed.

(** ** ColumnIntegrator *)

(** The run of the integrator on a three-dimensional tracer with the
    vertical tag on its third axis, up to the product of the two slices. *)
Lemma column_integral_steps (name : string) (q delp : Quantity)
    (n0 n1 n2 : nat) :
  shape (data q) = [n0; n1; n2] ->
  nth_error (dims q) 2 = Some Z_DIM ->
  exists o0 o1 o2 e0 e1 e2 d0 d1,
    origin q = [o0; o1; o2] /\ extent q = [e0; e1; e2]
    /\ dims q = [d0; d1; Z_DIM]
    /\ _compute_column_integral name q delp =
         (let '(lo, cnt) := slice_indices o2 (o2 + e2) n2 in
          delp_k <- slice_axis2 (data delp) o2 (o2 + e2) ;;
          prod <- multiply
                    {| shape := [n0; n1; cnt];
                       item := fun idx => item (data q) (shift_axis2 lo idx) |}
                    delp_k ;;
          total <- sum_axis2 prod ;;
          Quantity_init total [d0; d1] [o0; o1] [e0; e1] "kg/m**2").
Proof.
  intros Hs Hd.
  destruct (quantity_3d q n0 n1 n2 Hs)
    as (d0 & d1 & d2 & o0 & o1 & o2 & e0 & e1 & e2 & Hdims & Hor & Hex).
  rewrite Hdims in Hd. cbn in Hd. injection Hd as ->.
  exists o0, o1, o2, e0, e1, e2, d0, d1. repeat split; try assumption.
  unfold _compute_column_integral, getitem.
  rewrite Hdims, Hor, Hex. cbn [length nth_error Nat.ltb Nat.leb].
  py_step. rewrite String.eqb_refl. cbn [negb].
  unfold slice_axis2 at 1. rewrite Hs.
  destruct (slice_indices o2 (o2 + e2) n2) as [lo cnt]. py_step.
  reflexivity.
Qed.

(** The run of the integrator on a three-dimensional tracer and a
    pressure thickness whose array has the same shape. *)
Lemma column_integral_3d (name : string) (q delp : Quantity)
    (n0 n1 n2 : nat) (o2 e2 : Z) :
  shape (data q) = [n0; n1; n2] ->
  shape (data delp) = [n0; n1; n2] ->
  nth_error (dims q) 2 = Some Z_DIM ->
  nth_error (origin q) 2 = Some o2 ->
  nth_error (extent q) 2 = Some e2 ->
  exists r : Quantity,
    _compute_column_integral name q delp = Ok r
    /\ dims r = take 2 (dims q)
    /\ origin r = take 2 (origin q)
    /\ extent r = take 2 (extent q)
    /\ units r = "kg/m**2"
    /\ shape (data r) = [n0; n1]
    /\ forall i j : nat,
         (i < n0)%nat -> (j < n1)%nat ->
         item (data r) [i; j] =
           np_sum (map (fun k =>
                          let k' := (fst (slice_indices o2 (o2 + e2) n2) + k)%nat in
                          np_multiply (item (data q) [i; j; k'])
                                      (item (data delp) [i; j; k']))
                       (seq 0 (snd (slice_indices o2 (o2 + e2) n2)))).
Proof.
  intros Hq Hp Hd Ho He.
  destruct (column_integral_steps name q delp n0 n1 n2 Hq Hd)
    as (o0 & o1 & o2' & e0 & e1 & e2' & d0 & d1 & Hor & Hex & Hdims & Hrun).
  rewrite Hor in Ho. rewrite Hex in He. cbn in Ho, He.
  injection Ho as ->. injection He as ->.
  rewrite Hrun, Hdims, Hor, Hex. clear Hrun.
  unfold slice_axis2. rewrite Hp.
  destruct (slice_indices o2 (o2 + e2) n2) as [lo cnt]. py_step.
  unfold multiply. cbn [shape]. rewrite broadcast_shapes_same. py_step.
  unfold sum_axis2. cbn [shape]. py_step.
  match goal with
  | |- exists r, Quantity_init ?a ?ds ?os ?es ?u = Ok r /\ _ =>
      destruct (Quantity_init_Ok a ds os es u eq_refl)
        as (r & Hr & Hdata & Hdr & Hor' & Her & Hur)
  end.
  exists r. rewrite Hr, Hdata, Hdr, Hor', Her, Hur. repeat split.
  intros i j Hi Hj. cbn [item fst snd insert_axis2].
  f_equal. apply map_ext_in. intros k Hk. apply in_seq in Hk.
  rewrite broadcast_index_id by (repeat constructor; lia).
  reflexivity.
Qed.

(** The same run when the vertical sub-domain lies within the array. *)
Lemma column_integral_within (name : string) (q delp : Quantity)
    (n0 n1 n2 : nat) (o2 e2 : Z) :
  shape (data q) = [n0; n1; n2] ->
  shape (data delp) = [n0; n1; n2] ->
  nth_error (dims q) 2 = Some Z_DIM ->
  nth_error (origin q) 2 = Some o2 ->
  nth_error (extent q) 2 = Some e2 ->
  within_axis n2 o2 e2 = true ->
  exists r : Quantity,
    _compute_column_integral name q delp = Ok r
    /\ dims r = take 2 (dims q)
    /\ origin r = take 2 (origin q)
    /\ extent r = take 2 (extent q)
    /\ units r = "kg/m**2"
    /\ shape (data r) = [n0; n1]
    /\ forall i j : nat,
         (i < n0)%nat -> (j < n1)%nat ->
         item (data r) [i; j] =
           np_sum (map (fun k =>
                          np_multiply (item (data q) [i; j; k])
                                      (item (data delp) [i; j; k]))
                       (seq (Z.to_nat o2) (Z.to_nat e2))).
Proof.
  intros Hq Hp Hd Ho He Hin.
  destruct (column_integral_3d name q delp n0 n1 n2 o2 e2 Hq Hp Hd Ho He)
    as (r & Hr & Hdr & Hor & Her & Hur & Hs & Hitem).
  exists r. repeat split; try assumption.
  intros i j Hi Hj. rewrite (Hitem i j Hi Hj).
  rewrite (slice_indices_within _ _ _ Hin). cbn [fst snd]. cbn zeta.
  rewrite (map_seq_from0
             (fun k => np_multiply (item (data q) [i; j; k])
                                   (item (data delp) [i; j; k]))).
  reflexivity.
Qed.

(** What every successful run of the integrator has read and returned. *)
Lemma column_integral_Ok_metadata (name : string) (q delp r : Quantity) :
  _compute_column_integral name q delp = Ok r ->
  nth_error (dims q) 2 = Some Z_DIM
  /\ (2 < length (origin q))%nat /\ (2 < length (extent q))%nat
  /\ dims r = take 2 (dims q) ++ drop 3 (dims q)
  /\ origin r = take 2 (origin q)
  /\ extent r = take 2 (extent q)
  /\ units r = "kg/m**2".
Proof.
  unfold _compute_column_integral, getitem.
  destruct (Nat.ltb_spec 2 (length (dims q))) as [Hlen |]; py_step;
    [| discriminate].
  destruct (nth_error (dims q) 2) as [d2 |]; py_step; [| discriminate].
  destruct (String.eqb_spec d2 Z_DIM) as [-> |]; cbn [negb]; [| discriminate].
  destruct (nth_error (origin q) 2) eqn:Ho; py_step; [| discriminate].
  destruct (nth_error (extent q) 2) eqn:He; py_step; [| discriminate].
  destruct (slice_axis2 (data q) _ _); py_step; [| discriminate].
  destruct (slice_axis2 (data delp) _ _); py_step; [| discriminate].
  destruct (multiply _ _); py_step; [| discriminate].
  destruct (sum_axis2 _); py_step; [| discriminate].
  assert (Hlo : (2 < length (origin q))%nat)
    by (apply nth_error_Some; congruence).
  assert (Hle : (2 < length (extent q))%nat)
    by (apply nth_error_Some; congruence).
  destruct (extent q) as [| e0 [| e1 ?]]; cbn in Hle; try lia.
  cbn [nth_error]. py_step. intros H.
  apply Quantity_init_inv in H as (_ & -> & -> & -> & ->).
  repeat split; assumption.
Qed.


(** C8: the integrator refuses a tracer with two or fewer dimensions with
    an assertion failure, and a tracer whose third dimension tag is not
    the vertical one with a NotImplementedError; in neither case is a
    result returned. *)
Theorem column_integral_fails_loudly (name : string) (q delp : Quantity) :
  ((length (dims q) <= 2)%nat ->
     _compute_column_integral name q delp = Raise AssertionError)
  /\ (forall tag : string,
        nth_error (dims q) 2 = Some tag -> tag <> Z_DIM ->
        exists msg,
          _compute_column_integral name q delp = Raise (NotImplementedError msg)).
Proof.
  split.
  - intros H. unfold _compute_column_integral.
    destruct (Nat.ltb_spec 2 (length (dims q))); [lia | reflexivity].
  - intros tag Htag Hne. unfold _compute_column_integral.
    assert (Hlen : (2 <? length (dims q))%nat = true).
    { apply Nat.ltb_lt. apply nth_error_Some. congruence. }
    rewrite Hlen, (getitem_nth _ _ _ Htag). py_step.
    destruct (String.eqb_spec tag Z_DIM); [contradiction |].
    cbn [negb]. eexists; reflexivity.
Qed.

(** ** Loops that fill a dictionary *)


Lemma for_each_app_py {A S} (pre post : list A) (body : A -> S -> Py S)
    (s : S) (w : World) :
  for_each (pre ++ post) body s w =
    match for_each pre body s w with
    | (w1, Ok s1) => for_each post body s1 w1
    | (w1, Raise e) => (w1, Raise e)
    end.
Proof.
  revert s w. induction pre as [| x pre IH]; intros s w; [reflexivity |].
  cbn [app for_each]. py_step. unfold py_bind.
  destruct (body x s w) as [w1 [s1 | e]]; [apply IH | reflexivity].
Qed.

Section InsertLoop.

Variable f : string -> result Quantity.

Lemma insert_loop_ok (l : list string) (m0 m : gmap string Value) :
  for_each l (insert_computed f) m0 = Ok m ->
  (forall n, n ∈ l -> exists q, f n = Ok q /\ m !! n = Some (VQuantity q))
  /\ (forall k, k ∉ l -> m !! k = m0 !! k)
  /\ dom m = list_to_set l ∪ dom m0.
Proof.
  revert m0. induction l as [| x l IH]; intros m0 H.
  - cbn in H. injection H as <-. repeat split.
    + intros n Hn. inversion Hn.
    + set_solver.
  - cbn [for_each] in H. unfold insert_computed at 1 in H. py_step_in H.
    destruct (f x) as [qx |] eqn:Hx; py_step_in H; [| discriminate].
    destruct (IH _ H) as (Hin & Hout & Hdom). repeat split.
    + intros n Hn. destruct (decide (n ∈ l)) as [Hl | Hl]; [auto |].
      apply elem_of_cons in Hn as [-> | Hn]; [| contradiction].
      exists qx. split; [assumption |].
      rewrite (Hout _ Hl). apply lookup_insert_eq.
    + intros k Hk. apply not_elem_of_cons in Hk as [Hne Hk].
      rewrite (Hout _ Hk). apply lookup_insert_ne. congruence.
    + rewrite Hdom, dom_insert_L, list_to_set_cons. set_solver.
Qed.

Lemma insert_loop_total (l : list string) (m0 : gmap string Value) :
  (forall n, n ∈ l -> is_ok (f n) = true) ->
  exists m, for_each l (insert_computed f) m0 = Ok m.
Proof.
  revert m0. induction l as [| x l IH]; intros m0 H; [eexists; reflexivity |].
  cbn [for_each]. unfold insert_computed at 1. py_step.
  assert (Hx : is_ok (f x) = true) by (apply H; left).
  destruct (f x); [| discriminate]. py_step.
  apply IH. intros n Hn. apply H. right. assumption.
Qed.


Lemma insert_loop_ok_iff (l : list string) (m0 : gmap string Value) :
  is_ok (for_each l (insert_computed f) m0) = true
  <-> forall n, n ∈ l -> is_ok (f n) = true.
Proof.
  split.
  - destruct (for_each l (insert_computed f) m0) as [m |] eqn:E;
      [| discriminate].
    intros _ n Hn. apply insert_loop_ok in E as (Hin & _ & _).
    destruct (Hin n Hn) as (q & -> & _). reflexivity.
  - intros H. destruct (insert_loop_total l m0 H) as [m ->]. reflexivity.
Qed.

End InsertLoop.

(** ** Raw names *)

Lemma lookup_raw_spec (state : DriverState) (name : string) :
  lookup_raw state name =
    match dycore_state state !! name with
    | Some q => Ok q
    | None =>
        match physics_state state !! name with
        | Some q => Ok q
        | None => Raise (AttributeError name)
        end
    end.
Proof.
  unfold lookup_raw, getattr, try_except_AttributeError.
  destruct (dycore_state state !! name); reflexivity.
Qed.

Lemma lookup_raw_ok_iff (state : DriverState) (n : string) :
  is_ok (lookup_raw state n) = true
  <-> is_Some (dycore_state state !! n) \/ is_Some (physics_state state !! n).
Proof.
  rewrite lookup_raw_spec.
  destruct (dycore_state state !! n) as [q |];
    [| destruct (physics_state state !! n) as [q |]]; cbn.
  - split; [left; eauto | reflexivity].
  - split; [right; eauto | reflexivity].
  - split; [discriminate | intros [[q H] | [q H]]; discriminate].
Qed.

Lemma raw_body_insert (state : DriverState) :
  raw_body state = insert_computed (lookup_raw state).
Proof. reflexivity. Qed.

(** ** Derived names *)

Lemma derived_body_unsupported (state : DriverState) (name : string)
    (out : gmap string Value) (w : World) :
  startswith name column_integrated_ = false ->
  derived_body state name out w = (add_warning w (unsupported_msg name), Ok out).
Proof. unfold derived_body. intros ->. reflexivity. Qed.

Lemma derived_body_supported (state : DriverState) (name : string)
    (out : gmap string Value) (w : World) :
  startswith name column_integrated_ = true ->
  derived_body state name out w =
    (w, insert_computed (column_integrated state) name out).
Proof.
  unfold derived_body, insert_computed, column_integrated. intros ->.
  py_step. unfold py_bind, pure.
  match goal with |- context [match ?X with Ok _ => _ | Raise _ => _ end] =>
    destruct X end; reflexivity.
Qed.

Lemma get_derived_state_loop (self : MonitorDiagnostics) (state : DriverState) :
  _get_derived_state self state =
    for_each (md_derived_names self) (derived_body state) ∅.
Proof.
  unfold _get_derived_state. destruct (md_derived_names self); reflexivity.
Qed.

(** What a run of the derived loop can change: no monitor call, only
    warnings for names without the prefix, and in the output only entries
    under names with the prefix. *)
Lemma derived_loop_effects (state : DriverState) (l : list string)
    (out : gmap string Value) (w w' : World) (r : result (gmap string Value)) :
  for_each l (derived_body state) out w = (w', r) ->
  monitor_calls w' = monitor_calls w
  /\ exists new : list string,
       warnings w' = warnings w ++ new
       /\ (forall msg, msg ∈ new ->
             exists n, n ∈ l /\ startswith n column_integrated_ = false
                       /\ msg = unsupported_msg n)
       /\ forall out', r = Ok out' ->
            (forall n, n ∈ l -> startswith n column_integrated_ = false ->
               unsupported_msg n ∈ new)
            /\ (forall k, startswith k column_integrated_ = false ->
                  out' !! k = out !! k).
Proof.
  revert out w. induction l as [| x l IH]; intros out w H.
  - cbn in H. injection H as <- <-. split; [reflexivity |].
    exists []. rewrite app_nil_r. repeat split.
    + intros msg Hmsg. inversion Hmsg.
    + intros n Hn. inversion Hn.
    + intros k _. injection H as <-. reflexivity.
  - cbn [for_each] in H. py_step_in H. unfold py_bind in H.
    destruct (startswith x column_integrated_) eqn:Hx.
    + rewrite (derived_body_supported _ _ _ _ Hx) in H.
      unfold insert_computed in H. py_step_in H.
      destruct (column_integrated state x) as [qx |]; py_step_in H.
      * destruct (IH _ _ H) as (Hm & new & Hw & Hnew & Hout).
        split; [assumption |]. exists new. split; [assumption |]. split.
        -- intros msg Hmsg. destruct (Hnew _ Hmsg) as (n & Hn & Hp & ->).
           exists n. repeat split; [right |]; assumption.
        -- intros out' Hr. destruct (Hout _ Hr) as [Hall Hkeep]. split.
           ++ intros n Hn Hp. apply elem_of_cons in Hn as [-> | Hn];
                [congruence | auto].
           ++ intros k Hk. rewrite (Hkeep _ Hk).
              apply lookup_insert_ne. congruence.
      * injection H as <- <-. split; [reflexivity |].
        exists []. rewrite app_nil_r. repeat split; try discriminate.
        intros msg Hmsg. inversion Hmsg.
    + rewrite (derived_body_unsupported _ _ _ _ Hx) in H.
      destruct (IH _ _ H) as (Hm & new & Hw & Hnew & Hout).
      split; [assumption |]. exists (unsupported_msg x :: new).
      cbn [add_warning warnings] in Hw. rewrite <- app_assoc in Hw.
      split; [assumption |]. split.
      * intros msg Hmsg. apply elem_of_cons in Hmsg as [-> | Hmsg].
        -- exists x. repeat split; [left | assumption].
        -- destruct (Hnew _ Hmsg) as (n & Hn & Hp & ->).
           exists n. repeat split; [right |]; assumption.
      * intros out' Hr. destruct (Hout _ Hr) as [Hall Hkeep]. split.
        -- intros n Hn Hp. apply elem_of_cons in Hn as [-> | Hn];
             [left | right; auto].
        -- assumption.
Qed.

(** C7: at a derived name without the prefix "column_integrated_" the
    resolver issues the warning "<name> is not a supported diagnostic
    variable.", leaves the output as it is and does not raise; the loop
    goes on with the remaining names; and a mapping returned by the
    resolver has no entry for that name, while the warning is among those
    issued. *)
Theorem unsupported_derived_name_skipped (self : MonitorDiagnostics)
    (state : DriverState) (name : string) (pre post : list string)
    (w w1 : World) (out1 : gmap string Value) :
  startswith name column_integrated_ = false ->
  md_derived_names self = pre ++ name :: post ->
  for_each pre (derived_body state) ∅ w = (w1, Ok out1) ->
  derived_body state name out1 w1
    = (add_warning w1 (name ++ " is not a supported diagnostic variable."),
       Ok out1)
  /\ _get_derived_state self state w
     = for_each post (derived_body state) out1
         (add_warning w1 (name ++ " is not a supported diagnostic variable."))
  /\ forall (w' : World) (out : gmap string Value),
       _get_derived_state self state w = (w', Ok out) ->
       out !! name = None
       /\ (name ++ " is not a supported diagnostic variable.")%string
          ∈ warnings w'.
Proof.
  intros Hname Hnames Hpre.
  pose proof (derived_body_unsupported state name out1 w1 Hname) as Hbody.
  split; [assumption |]. split.
  - rewrite get_derived_state_loop, Hnames, for_each_app_py, Hpre.
    cbn [for_each]. py_step. unfold py_bind. rewrite Hbody. reflexivity.
  - intros w' out H. rewrite get_derived_state_loop in H.
    apply derived_loop_effects in H as (_ & new & Hw & _ & Hout).
    destruct (Hout out eq_refl) as [Hall Hkeep]. split.
    + rewrite (Hkeep _ Hname). apply lookup_empty.
    + rewrite Hw. apply elem_of_app. right.
      apply (Hall name); [| assumption].
      rewrite Hnames. apply elem_of_app. right. left.
Qed.

(** ** Strings *)

Lemma length_append (a b : string) :
  String.length (a ++ b) = (String.length a + String.length b)%nat.
Proof. induction a as [| c a IH]; simpl; [reflexivity | f_equal; exact IH]. Qed.

Lemma append_inj_r (a b s : string) : (a ++ s = b ++ s)%string -> a = b.
Proof.
  revert b. induction a as [| c a IH]; intros [| c' b] H.
  - reflexivity.
  - apply (f_equal String.length) in H.
    rewrite !length_append in H. simpl in H. lia.
  - apply (f_equal String.length) in H.
    rewrite !length_append in H. simpl in H. lia.
  - simpl in H. injection H as -> H. f_equal. apply IH. assumption.
Qed.

Lemma unsupported_msg_inj (n n' : string) :
  unsupported_msg n = unsupported_msg n' -> n = n'.
Proof. apply append_inj_r. Qed.

Lemma substring_all (s : string) : String.substring 0 (String.length s) s = s.
Proof. induction s as [| c s IH]; simpl; [reflexivity | f_equal; exact IH]. Qed.

Lemma startswith_prefixed (tracer : string) :
  startswith (column_integrated_ ++ tracer) column_integrated_ = true.
Proof. destruct tracer; reflexivity. Qed.

Lemma str_from_prefixed (tracer : string) :
  str_from (String.length column_integrated_) (column_integrated_ ++ tracer)
  = tracer.
Proof.
  unfold str_from. rewrite length_append.
  replace (String.length column_integrated_ + String.length tracer
           - String.length column_integrated_)%nat
    with (String.length tracer) by lia.
  simpl. apply substring_all.
Qed.

Lemma column_integrated_prefixed (state : DriverState) (tracer : string) :
  column_integrated state (column_integrated_ ++ tracer) =
    (q_in <- getattr (dycore_state state) tracer ;;
     delp <- getattr (dycore_state state) "delp" ;;
     _compute_column_integral (column_integrated_ ++ tracer) q_in delp).
Proof. unfold column_integrated. rewrite str_from_prefixed. reflexivity. Qed.

(** ** The whole of store *)

Lemma derived_loop_supported (state : DriverState) (l : list string)
    (out : gmap string Value) (w : World) :
  (forall n, n ∈ l -> startswith n column_integrated_ = true) ->
  for_each l (derived_body state) out w =
    (w, for_each l (insert_computed (column_integrated state)) out).
Proof.
  revert out. induction l as [| x l IH]; intros out H; [reflexivity |].
  cbn [for_each]. py_step. unfold py_bind.
  rewrite derived_body_supported by (apply H; left).
  destruct (insert_computed (column_integrated state) x out); py_step;
    [| reflexivity].
  apply IH. intros n Hn. apply H. right. assumption.
Qed.

(** A supported name whose value cannot be computed stops the loop, at
    that name or earlier. *)
Lemma derived_loop_raises (state : DriverState) (l : list string)
    (n : string) (out : gmap string Value) (w : World) :
  n ∈ l -> startswith n column_integrated_ = true ->
  is_ok (column_integrated state n) = false ->
  exists w' e, for_each l (derived_body state) out w = (w', Raise e).
Proof.
  intros Hn Hp Hfail. revert out w.
  induction l as [| x l IH]; intros out w; [inversion Hn |].
  cbn [for_each]. py_step. unfold py_bind.
  destruct (startswith x column_integrated_) eqn:Hx.
  - rewrite (derived_body_supported _ _ _ _ Hx). unfold insert_computed.
    py_step. destruct (column_integrated state x) as [qx |] eqn:Hqx; py_step.
    + apply IH. apply elem_of_cons in Hn as [-> | Hn]; [| assumption].
      rewrite Hqx in Hfail. discriminate.
    + eauto.
  - rewrite (derived_body_unsupported _ _ _ _ Hx).
    apply IH. apply elem_of_cons in Hn as [-> | Hn]; [congruence | assumption].
Qed.

(** The run of [store] once the raw names and the derived state are
    there: the merged record goes to the monitor, and the outcome of
    [store] is the outcome of that call. *)
Lemma store_steps (self : MonitorDiagnostics) (time : TimeValue)
    (state : DriverState) (w w1 : World) (m1 m2 : gmap string Value) :
  for_each (md_names self) (raw_body state) {[ "time" := VTime time ]} = Ok m1 ->
  _get_derived_state self state w = (w1, Ok m2) ->
  store self time state w =
    (add_call w1 (MonitorStore (dict_update m1 m2)),
     monitor_response (monitor_calls w1) (MonitorStore (dict_update m1 m2))).
Proof.
  intros Hraw Hder. unfold store. py_step. unfold py_bind, pure.
  rewrite Hraw, Hder. reflexivity.
Qed.


(** C10: a derived name "column_integrated_<tracer>" whose tracer is not
    on the dycore state makes [store] raise, with nothing handed to the
    monitor; the warnings issued on the way are those of names without the
    prefix, none of them for this name; and when the loops reach the name,
    the exception is the AttributeError of the tracer lookup. *)
Theorem missing_tracer_raises (self : MonitorDiagnostics) (time : TimeValue)
    (state : DriverState) (tracer : string) (w : World) :
  (column_integrated_ ++ tracer)%string ∈ md_derived_names self ->
  dycore_state state !! tracer = None ->
  (exists (w' : World) (e : exn) (new : list string),
      store self time state w = (w', Raise e)
      /\ monitor_calls w' = monitor_calls w
      /\ warnings w' = warnings w ++ new
      /\ ~ (unsupported_msg (column_integrated_ ++ tracer) ∈ new)
      /\ forall msg, msg ∈ new ->
           exists n, n ∈ md_derived_names self
                     /\ startswith n column_integrated_ = false
                     /\ msg = unsupported_msg n)
  /\ (forall (pre post : list string) (m : gmap string Value) (w1 : World)
             (out1 : gmap string Value),
        for_each (md_names self) (raw_body state) {[ "time" := VTime time ]}
          = Ok m ->
        md_derived_names self = pre ++ (column_integrated_ ++ tracer)%string :: post ->
        for_each pre (derived_body state) ∅ w = (w1, Ok out1) ->
        store self time state w = (w1, Raise (AttributeError tracer))).
Proof.
  intros Hin Hmissing.
  assert (Hval : column_integrated state (column_integrated_ ++ tracer)
                 = Raise (AttributeError tracer)).
  { rewrite column_integrated_prefixed. unfold getattr. rewrite Hmissing.
    reflexivity. }
  split.
  - unfold store. py_step. unfold py_bind, pure.
    destruct (for_each (md_names self) (raw_body state) _) as [m | e].
    + rewrite get_derived_state_loop.
      destruct (derived_loop_raises state (md_derived_names self) _ ∅ w Hin
                  (startswith_prefixed tracer)) as (w' & e & Hloop).
      { rewrite Hval. reflexivity. }
      rewrite Hloop.
      apply derived_loop_effects in Hloop as (Hm & new & Hw & Hnew & _).
      exists w', e, new. repeat split; try assumption.
      intros Habs. destruct (Hnew _ Habs) as (n & _ & Hp & Heq).
      apply unsupported_msg_inj in Heq. subst n.
      rewrite startswith_prefixed in Hp. discriminate.
    + exists w, e, []. rewrite app_nil_r. repeat split.
      * intros Habs. inversion Habs.
      * intros msg Hmsg. inversion Hmsg.
  - intros pre post m w1 out1 Hraw Hnames Hpre.
    unfold store. py_step. unfold py_bind, pure. rewrite Hraw.
    rewrite get_derived_state_loop, Hnames, for_each_app_py, Hpre.
    cbn [for_each]. py_step. unfold py_bind.
    rewrite derived_body_supported by apply startswith_prefixed.
    unfold insert_computed. rewrite Hval. reflexivity.
Qed.

(** C1, amended: when every raw name resolves on one of the sub-states,
    every derived name is "column_integrated_<tracer>" with the tracer and
    delp on the dycore state, and the column integral of each tracer is
    returned, [store] makes exactly one call to the monitor, the call of
    its [store], issues no warning, and returns or raises as that call
    does; the mapping it hands over has the keys "time", the raw names and
    the derived names; "time" holds the given time value as it is unless
    "time" is itself a raw name; a raw name that is not also a derived
    name holds the looked-up quantity; a derived name holds the column
    integral. *)
Theorem store_one_record (self : MonitorDiagnostics) (time : TimeValue)
    (state : DriverState) (w : World) :
  (forall n, n ∈ md_names self ->
     is_Some (dycore_state state !! n) \/ is_Some (physics_state state !! n)) ->
  (forall n, n ∈ md_derived_names self ->
     exists (tracer : string) (q delp r : Quantity),
       n = (column_integrated_ ++ tracer)%string
       /\ dycore_state state !! tracer = Some q
       /\ dycore_state state !! "delp" = Some delp
       /\ _compute_column_integral n q delp = Ok r) ->
  exists m : gmap string Value,
    store self time state w =
      (add_call w (MonitorStore m),
       monitor_response (monitor_calls w) (MonitorStore m))
    /\ dom m = {[ "time" ]} ∪ list_to_set (md_names self)
               ∪ list_to_set (md_derived_names self)
    /\ ("time" ∉ md_names self -> m !! "time" = Some (VTime time))
    /\ (forall n, n ∈ md_names self -> n ∉ md_derived_names self ->
          exists q, lookup_raw state n = Ok q /\ m !! n = Some (VQuantity q))
    /\ (forall n, n ∈ md_derived_names self ->
          exists r, column_integrated state n = Ok r
                    /\ m !! n = Some (VQuantity r)).
Proof.
  intros Hraw Hder.
  assert (Hraw' : forall n, n ∈ md_names self ->
                    is_ok (lookup_raw state n) = true).
  { intros n Hn. apply lookup_raw_ok_iff. auto. }
  assert (Hsup : forall n, n ∈ md_derived_names self ->
                   startswith n column_integrated_ = true).
  { intros n Hn. destruct (Hder n Hn) as (tracer & _ & _ & _ & -> & _).
    apply startswith_prefixed. }
  assert (Hder' : forall n, n ∈ md_derived_names self ->
                    is_ok (column_integrated state n) = true).
  { intros n Hn.
    destruct (Hder n Hn) as (tracer & q & delp & r & -> & Hq & Hdelp & Hr).
    rewrite column_integrated_prefixed. unfold getattr.
    rewrite Hq, Hdelp. py_step. rewrite Hr. reflexivity. }
  destruct (insert_loop_total _ (md_names self) {[ "time" := VTime time ]} Hraw')
    as [m1 Hm1].
  destruct (insert_loop_total _ (md_derived_names self) ∅ Hder') as [m2 Hm2].
  exists (dict_update m1 m2). split.
  { apply store_steps; [assumption |].
    rewrite get_derived_state_loop.
    rewrite derived_loop_supported by assumption. rewrite Hm2. reflexivity. }
  apply insert_loop_ok in Hm1 as (Hin1 & Hout1 & Hdom1).
  apply insert_loop_ok in Hm2 as (Hin2 & Hout2 & Hdom2).
  unfold dict_update. repeat split.
  - rewrite dom_union_L, Hdom1, Hdom2, dom_singleton_L, dom_empty_L.
    set_solver.
  - intros Htime.
    assert (Hnot : "time" ∉ md_derived_names self).
    { intros Habs. apply Hsup in Habs. discriminate Habs. }
    rewrite lookup_union_r by (rewrite (Hout2 _ Hnot); apply lookup_empty).
    rewrite (Hout1 _ Htime). apply lookup_singleton_eq.
  - intros n Hn Hnot. destruct (Hin1 n Hn) as (q & Hq & Hm).
    exists q. split; [assumption |].
    rewrite lookup_union_r by (rewrite (Hout2 _ Hnot); apply lookup_empty).
    assumption.
  - intros n Hn. destruct (Hin2 n Hn) as (r & Hr & Hm).
    exists r. split; [assumption |].
    apply lookup_union_Some_l. assumption.
Qed.

(** ** The no-op variant *)

(** X7: on the no-op variant every sequence of calls returns normally and
    leaves no trace: no call on a monitor, no warning, whatever the times,
    states and grids passed. *)
Theorem null_diagnostics_noop (calls : list Call) (w : World) :
  run_calls NullDiagnostics calls w = (w, Ok tt).
Proof.
  unfold run_calls. induction calls as [| c calls IH]; [reflexivity |].
  cbn [for_each]. py_step. unfold py_bind.
  destruct c; cbn; exact IH.
Qed.

(** ** Runs of the derived loop and of store *)

Lemma extend_nil (w : World) : extend w [] [] = w.
Proof. destruct w. unfold extend. cbn. rewrite !app_nil_r. reflexivity. Qed.

Lemma extend_extend (w : World) (c1 c2 : list MonitorCall) (s1 s2 : list string) :
  extend (extend w c1 s1) c2 s2 = extend w (c1 ++ c2) (s1 ++ s2).
Proof. unfold extend. cbn. rewrite !app_assoc. reflexivity. Qed.

(** The derived loop, whatever the world it starts in: its result is that
    of the loop over the supported names alone, and its warnings are those
    of the unsupported names met before it stopped, in order. *)
Lemma derived_loop_run (state : DriverState) (l : list string)
    (out : gmap string Value) :
  exists ws rest : list string,
    map unsupported_msg (List.filter unsupported l) = ws ++ rest
    /\ (is_ok (for_each (List.filter supported l)
                 (insert_computed (column_integrated state)) out) = true ->
        rest = [])
    /\ forall w : World,
         for_each l (derived_body state) out w =
           (extend w [] ws,
            for_each (List.filter supported l)
              (insert_computed (column_integrated state)) out).
Proof.
  revert out. induction l as [| x l IH]; intros out.
  - exists [], []. repeat split. intros w. rewrite extend_nil. reflexivity.
  - cbn [List.filter]. unfold unsupported at 1.
    destruct (supported x) eqn:Hx; cbn [negb].
    + cbn [for_each]. py_step.
      destruct (insert_computed (column_integrated state) x out)
        as [out' | e] eqn:Hins.
      * destruct (IH out') as (ws & rest & Hsplit & Hrest & Hrun).
        exists ws, rest. repeat split; try assumption.
        intros w. unfold py_bind.
        rewrite (derived_body_supported _ _ _ _ Hx), Hins. apply Hrun.
      * exists [], (map unsupported_msg (List.filter unsupported l)).
        repeat split; [discriminate |].
        intros w. unfold py_bind.
        rewrite (derived_body_supported _ _ _ _ Hx), Hins, extend_nil.
        reflexivity.
    + destruct (IH out) as (ws & rest & Hsplit & Hrest & Hrun).
      exists (unsupported_msg x :: ws), rest. cbn [map].
      rewrite Hsplit. repeat split; try assumption.
      intros w. cbn [for_each]. py_step. unfold py_bind.
      rewrite (derived_body_unsupported _ _ _ _ Hx), Hrun.
      unfold extend, add_warning. cbn. rewrite <- app_assoc. reflexivity.
Qed.

(** The run of [store], whatever the world it starts in. *)
Lemma store_run (self : MonitorDiagnostics) (time : TimeValue)
    (state : DriverState) :
  exists ws rest : list string,
    map unsupported_msg (List.filter unsupported (md_derived_names self))
      = ws ++ rest
    /\ forall w : World,
         store self time state w =
           match for_each (md_names self) (insert_computed (lookup_raw state))
                   {[ "time" := VTime time ]} with
           | Raise e => (w, Raise e)
           | Ok m1 =>
               match for_each (List.filter supported (md_derived_names self))
                       (insert_computed (column_integrated state)) ∅ with
               | Ok m2 =>
                   (extend w [MonitorStore (dict_update m1 m2)]
                      (map unsupported_msg
                         (List.filter unsupported (md_derived_names self))),
                    monitor_response (monitor_calls w)
                      (MonitorStore (dict_update m1 m2)))
               | Raise e => (extend w [] ws, Raise e)
               end
           end.
Proof.
  destruct (derived_loop_run state (md_derived_names self) ∅)
    as (ws & rest & Hsplit & Hrest & Hrun).
  exists ws, rest. split; [assumption |].
  intros w. unfold store. py_step. unfold py_bind, pure.
  rewrite raw_body_insert.
  destruct (for_each (md_names self) _ _) as [m1 | e]; [| reflexivity].
  rewrite get_derived_state_loop, Hrun.
  destruct (for_each (List.filter supported (md_derived_names self)) _ _)
    as [m2 | e]; [| reflexivity].
  rewrite (Hrest eq_refl), app_nil_r in Hsplit. rewrite Hsplit.
  unfold monitor_call, add_call, extend. cbn. rewrite app_nil_r. reflexivity.
Qed.

Lemma elem_of_filter_bool (p : string -> bool) (l : list string) (n : string) :
  n ∈ List.filter p l <-> n ∈ l /\ p n = true.
Proof. rewrite !list_elem_of_In. apply filter_In. Qed.

(** X8: [store] only appends to what the monitor and the warnings already
    hold, and the warnings and the record do not depend on them: either it
    raises before the monitor is reached, with no call on the monitor, or
    it makes exactly one call, of the monitor's [store], and returns or
    raises as that call does. *)
Theorem store_appends (self : MonitorDiagnostics) (time : TimeValue)
    (state : DriverState) :
  exists (ws : list string) (o : exn + gmap string Value),
    forall w : World,
      store self time state w =
        match o with
        | inl e => (extend w [] ws, Raise e)
        | inr m =>
            (extend w [MonitorStore m] ws,
             monitor_response (monitor_calls w) (MonitorStore m))
        end.
Proof.
  destruct (store_run self time state) as (ws & rest & _ & Hrun).
  destruct (for_each (md_names self) (insert_computed (lookup_raw state))
              {[ "time" := VTime time ]}) as [m1 | e] eqn:Hraw.
  - destruct (for_each (List.filter supported (md_derived_names self))
                (insert_computed (column_integrated state)) ∅)
      as [m2 | e] eqn:Hder.
    + eexists _, (inr _). intros w. rewrite Hrun. reflexivity.
    + exists ws, (inl e). intros w. rewrite Hrun. reflexivity.
  - exists [], (inl e). intros w. rewrite Hrun, extend_nil. reflexivity.
Qed.

(** X9: [store] reaches the monitor exactly when every raw name is on one
    of the two sub-states and the column integral of every derived name
    with the prefix is returned; it then returns or raises as the call of
    the monitor's [store] does; otherwise it raises without a call on the
    monitor.  Derived names without the prefix never make it fail. *)
Theorem store_reaches_monitor (self : MonitorDiagnostics) (time : TimeValue)
    (state : DriverState) (w : World) :
  let resolved :=
    (forall n, n ∈ md_names self ->
       is_Some (dycore_state state !! n)
       \/ is_Some (physics_state state !! n))
    /\ (forall n, n ∈ md_derived_names self -> supported n = true ->
          is_ok (column_integrated state n) = true) in
  (resolved ->
   exists m : gmap string Value,
     monitor_calls (fst (store self time state w))
       = monitor_calls w ++ [MonitorStore m]
     /\ snd (store self time state w)
        = monitor_response (monitor_calls w) (MonitorStore m))
  /\ (~ resolved ->
      monitor_calls (fst (store self time state w)) = monitor_calls w
      /\ exists e, snd (store self time state w) = Raise e).
Proof.
  cbn zeta.
  destruct (store_run self time state) as (ws & rest & _ & Hrun).
  rewrite Hrun.
  pose proof (insert_loop_ok_iff (lookup_raw state) (md_names self)
                {[ "time" := VTime time ]}) as Hraw.
  pose proof (insert_loop_ok_iff (column_integrated state)
                (List.filter supported (md_derived_names self)) ∅) as Hder.
  destruct (for_each (md_names self) _ _) as [m1 | e1].
  - destruct (for_each (List.filter supported (md_derived_names self)) _ _)
      as [m2 | e2]; cbn [fst snd].
    + split; [intros _; eexists; split; reflexivity |].
      intros Hnot. exfalso. apply Hnot. split.
      * intros n Hn. apply lookup_raw_ok_iff.
        apply Hraw; [reflexivity | exact Hn].
      * intros n Hn Hs. apply Hder; [reflexivity |].
        apply elem_of_filter_bool. auto.
    + split.
      * intros [_ H].
        assert (Habs : is_ok (@Raise (gmap string Value) e2) = true);
          [| discriminate Habs].
        apply Hder. intros n Hn.
        apply elem_of_filter_bool in Hn as [Hn Hs]. auto.
      * intros _. split; [cbn; apply app_nil_r | eauto].
  - cbn [fst snd]. split.
    + intros [H _].
      assert (Habs : is_ok (@Raise (gmap string Value) e1) = true);
        [| discriminate Habs].
      apply Hraw. intros n Hn. apply lookup_raw_ok_iff. auto.
    + intros _. split; [reflexivity | eauto].
Qed.

Lemma filter_supported_twice (l : list string) :
  List.filter supported (List.filter supported l) = List.filter supported l.
Proof.
  induction l as [| x l IH]; [reflexivity |]. cbn [List.filter].
  destruct (supported x) eqn:Hx; [| exact IH].
  cbn [List.filter]. rewrite Hx, IH. reflexivity.
Qed.

Lemma filter_unsupported_supported (l : list string) :
  List.filter unsupported (List.filter supported l) = [].
Proof.
  induction l as [| x l IH]; [reflexivity |]. cbn [List.filter].
  destruct (supported x) eqn:Hx; [| exact IH].
  cbn [List.filter]. unfold unsupported at 1. rewrite Hx. exact IH.
Qed.

(** X10: the derived names without the prefix change nothing but the
    warnings: with them removed from the configuration, [store] has the
    same outcome and hands the same records to the monitor, and issues no
    warning. *)
Theorem unsupported_names_only_warn (self : MonitorDiagnostics)
    (time : TimeValue) (state : DriverState) (w : World) :
  let self' := {| md_names := md_names self;
                  md_derived_names :=
                    List.filter supported (md_derived_names self) |} in
  snd (store self' time state w) = snd (store self time state w)
  /\ monitor_calls (fst (store self' time state w))
     = monitor_calls (fst (store self time state w))
  /\ warnings (fst (store self' time state w)) = warnings w.
Proof.
  cbn zeta.
  destruct (store_run self time state) as (ws & rest & _ & Hrun).
  destruct (store_run {| md_names := md_names self;
                         md_derived_names :=
                           List.filter supported (md_derived_names self) |}
              time state) as (ws' & rest' & Hsplit' & Hrun').
  rewrite Hrun, Hrun'. cbn [md_names md_derived_names] in *.
  rewrite filter_supported_twice, filter_unsupported_supported in *.
  cbn [map] in Hsplit'. symmetry in Hsplit'.
  apply app_eq_nil in Hsplit' as [-> _].
  destruct (for_each (md_names self) _ _) as [m1 | e1];
    [| repeat split].
  destruct (for_each (List.filter supported (md_derived_names self)) _ _)
    as [m2 | e2]; cbn; rewrite ?app_nil_r; repeat split.
Qed.

(** X11: when the resolver returns, it has issued one warning for each
    occurrence of a name without the prefix, in configuration order, made
    no call on the monitor, and its output has exactly the names with the
    prefix as keys. *)
Theorem derived_state_warnings (self : MonitorDiagnostics)
    (state : DriverState) (w w' : World) (out : gmap string Value) :
  _get_derived_state self state w = (w', Ok out) ->
  warnings w' =
    warnings w
    ++ map unsupported_msg (List.filter unsupported (md_derived_names self))
  /\ monitor_calls w' = monitor_calls w
  /\ dom out = list_to_set (List.filter supported (md_derived_names self)).
Proof.
  rewrite get_derived_state_loop.
  destruct (derived_loop_run state (md_derived_names self) ∅)
    as (ws & rest & Hsplit & Hrest & Hrun).
  rewrite Hrun. intros [= <- Hout].
  rewrite Hout in Hrest. rewrite (Hrest eq_refl), app_nil_r in Hsplit.
  apply insert_loop_ok in Hout as (_ & _ & Hdom).
  cbn. rewrite app_nil_r, Hsplit, Hdom, dom_empty_L. repeat split.
  set_solver.
Qed.

(** X12: when [store] returns, the record handed to the monitor has as
    keys "time", the raw names and the derived names with the prefix;
    "time" holds the time value given unless it is a raw name; a raw name
    holds the quantity looked up unless it is also a derived name with the
    prefix; a derived name with the prefix holds its column integral; a
    name without the prefix that is neither "time" nor a raw name has no
    entry. *)
Theorem store_record_keys (self : MonitorDiagnostics) (time : TimeValue)
    (state : DriverState) (w w' : World) :
  store self time state w = (w', Ok tt) ->
  exists m : gmap string Value,
    monitor_calls w' = monitor_calls w ++ [MonitorStore m]
    /\ dom m = {[ "time" ]} ∪ list_to_set (md_names self)
               ∪ list_to_set (List.filter supported (md_derived_names self))
    /\ ("time" ∉ md_names self -> m !! "time" = Some (VTime time))
    /\ (forall n, n ∈ md_names self ->
          ~ (n ∈ md_derived_names self /\ supported n = true) ->
          exists q, lookup_raw state n = Ok q /\ m !! n = Some (VQuantity q))
    /\ (forall n, n ∈ md_derived_names self -> supported n = true ->
          exists r, column_integrated state n = Ok r
                    /\ m !! n = Some (VQuantity r))
    /\ (forall n, supported n = false -> n ∉ md_names self -> n <> "time" ->
          m !! n = None).
Proof.
  destruct (store_run self time state) as (ws & rest & _ & Hrun).
  rewrite Hrun.
  destruct (for_each (md_names self) _ _) as [m1 | e1] eqn:Hraw;
    [| discriminate].
  destruct (for_each (List.filter supported (md_derived_names self)) _ _)
    as [m2 | e2] eqn:Hder; [| discriminate].
  intros [= <- _]. exists (dict_update m1 m2).
  apply insert_loop_ok in Hraw as (Hin1 & Hout1 & Hdom1).
  apply insert_loop_ok in Hder as (Hin2 & Hout2 & Hdom2).
  unfold dict_update. repeat split.
  - rewrite dom_union_L, Hdom1, Hdom2, dom_singleton_L, dom_empty_L.
    set_solver.
  - intros Htime.
    assert (Hnot : "time" ∉ List.filter supported (md_derived_names self)).
    { intros Habs. apply elem_of_filter_bool in Habs as [_ Habs].
      discriminate Habs. }
    rewrite lookup_union_r by (rewrite (Hout2 _ Hnot); apply lookup_empty).
    rewrite (Hout1 _ Htime). apply lookup_singleton_eq.
  - intros n Hn Hnd. destruct (Hin1 n Hn) as (q & Hq & Hm).
    exists q. split; [assumption |].
    assert (Hnot : n ∉ List.filter supported (md_derived_names self)).
    { intros Habs. apply elem_of_filter_bool in Habs. contradiction. }
    rewrite lookup_union_r by (rewrite (Hout2 _ Hnot); apply lookup_empty).
    assumption.
  - intros n Hn Hs. destruct (Hin2 n) as (r & Hr & Hm).
    { apply elem_of_filter_bool. auto. }
    exists r. split; [assumption |]. apply lookup_union_Some_l. assumption.
  - intros n Hs Hn Htime.
    assert (Hnot : n ∉ List.filter supported (md_derived_names self)).
    { intros Habs. apply elem_of_filter_bool in Habs as [_ Habs]. congruence. }
    apply lookup_union_None. split.
    + rewrite (Hout2 _ Hnot). apply lookup_empty.
    + rewrite (Hout1 _ Hn). apply lookup_singleton_ne. congruence.
Qed.

(** ** The calls of a run *)

(** Each call of the interface appends at most one call on the monitor,
    and exactly one when it returns normally on the monitor variant. *)
Lemma do_call_frame (d : Diagnostics) (c : Call) (w : World) :
  exists (calls : list MonitorCall) (ws : list string),
    fst (do_call d c w) = extend w calls ws
    /\ (length calls <= 1)%nat
    /\ (snd (do_call d c w) = Ok tt -> d <> NullDiagnostics ->
        length calls = 1%nat).
Proof.
  destruct d as [| monitor self].
  - exists [], []. repeat split; [| cbn; lia | congruence].
    rewrite extend_nil. destruct c; reflexivity.
  - destruct c as [time state | grid |]; cbn [do_call Diagnostics_store
      Diagnostics_store_grid Diagnostics_cleanup].
    + destruct (store_run self time state) as (ws & rest & _ & Hrun).
      rewrite Hrun.
      destruct (for_each (md_names self) (insert_computed (lookup_raw state))
                  {[ "time" := VTime time ]}) as [m1 | e].
      * destruct (for_each (List.filter supported (md_derived_names self))
                    (insert_computed (column_integrated state)) ∅)
          as [m2 | e].
        -- eexists [_], _. cbn [fst snd].
           split; [reflexivity |]. split; [cbn; lia | reflexivity].
        -- exists [], ws. cbn [fst snd].
           repeat split; [cbn; lia | discriminate].
      * exists [], []. cbn [fst snd]. rewrite extend_nil.
        repeat split; [cbn; lia | discriminate].
    + eexists [_], []. split; [| split; [cbn; lia | reflexivity]].
      unfold store_grid, monitor_call, add_call, extend. cbn.
      rewrite app_nil_r. reflexivity.
    + eexists [_], []. split; [| split; [cbn; lia | reflexivity]].
      unfold cleanup, monitor_call, add_call, extend. cbn.
      rewrite app_nil_r. reflexivity.
Qed.

(** X20: a run of calls only appends to what the monitor has received;
    it appends at most one monitor call per call of the interface, and on
    the monitor variant a run that returns normally appends exactly one
    per call. *)
Theorem run_calls_monitor_log (d : Diagnostics) (calls : list Call) (w : World) :
  exists (new : list MonitorCall) (ws : list string),
    fst (run_calls d calls w) = extend w new ws
    /\ (length new <= length calls)%nat
    /\ (snd (run_calls d calls w) = Ok tt -> d <> NullDiagnostics ->
        length new = length calls).
Proof.
  unfold run_calls. revert w. induction calls as [| c calls IH]; intros w.
  - exists [], []. rewrite extend_nil. repeat split. cbn. lia.
  - cbn [for_each]. py_step. unfold py_bind.
    destruct (do_call_frame d c w) as (cs & ws & Hrun & Hle & Hone).
    destruct (do_call d c w) as [w1 [[] | e]]; cbn [fst snd] in Hrun, Hone;
      subst w1.
    + destruct (IH (extend w cs ws)) as (new & ws' & Hfst & Hlen & Hall).
      exists (cs ++ new), (ws ++ ws'). rewrite Hfst, extend_extend.
      split; [reflexivity |]. rewrite length_app. cbn [length]. split; [lia |].
      intros Hok Hd. rewrite (Hone eq_refl Hd), (Hall Hok Hd). reflexivity.
    + exists cs, ws. cbn [fst snd]. repeat split; [cbn; lia | discriminate].
Qed.

(** ** ColumnIntegrator: results *)

Lemma within_axis_iff (n : nat) (o e : Z) :
  within_axis n o e = true <-> (0 <= o /\ 0 <= e /\ o + e <= Z.of_nat n)%Z.
Proof.
  unfold within_axis. rewrite !andb_true_iff, !Z.leb_le. tauto.
Qed.

Lemma map_const_repeat {A B} (x : B) (l : list A) :
  map (fun _ => x) l = repeat x (length l).
Proof. induction l as [| a l IH]; cbn; [| rewrite IH]; reflexivity. Qed.

(** C2, amended: for a tracer of shape (X, Y, Z) whose entries all equal
    c and a pressure thickness of the same shape whose entries all equal
    d, with the vertical tag on axis 2 and the vertical sub-domain
    covering the Z levels, the integrator returns; the result has units
    "kg/m**2" and shape (X, Y), and each of its entries is the sum, as the
    array library adds them, of Z copies of the product of c and d as the
    array library multiplies them. *)
Theorem column_integral_constant (name : string) (q delp : Quantity)
    (X Y Zn : nat) (c d : F) :
  shape (data q) = [X; Y; Zn] ->
  shape (data delp) = [X; Y; Zn] ->
  (forall i j k : nat, (i < X)%nat -> (j < Y)%nat -> (k < Zn)%nat ->
     item (data q) [i; j; k] = c) ->
  (forall i j k : nat, (i < X)%nat -> (j < Y)%nat -> (k < Zn)%nat ->
     item (data delp) [i; j; k] = d) ->
  nth_error (dims q) 2 = Some Z_DIM ->
  nth_error (origin q) 2 = Some 0%Z ->
  nth_error (extent q) 2 = Some (Z.of_nat Zn) ->
  exists r : Quantity,
    _compute_column_integral name q delp = Ok r
    /\ units r = "kg/m**2"
    /\ shape (data r) = [X; Y]
    /\ forall i j : nat, (i < X)%nat -> (j < Y)%nat ->
         item (data r) [i; j] = np_sum (repeat (np_multiply c d) Zn).
Proof.
  intros Hq Hp Hc Hd Hdim Ho He.
  destruct (column_integral_within name q delp X Y Zn 0 (Z.of_nat Zn)
              Hq Hp Hdim Ho He)
    as (r & Hr & _ & _ & _ & Hu & Hs & Hitem).
  { apply within_axis_iff. lia. }
  exists r. repeat split; try assumption.
  intros i j Hi Hj. rewrite (Hitem i j Hi Hj). f_equal.
  rewrite Nat2Z.id. cbn [Z.to_nat].
  transitivity (map (fun _ : nat => np_multiply c d) (seq 0 Zn)).
  - apply map_ext_in. intros k Hk. apply in_seq in Hk.
    rewrite Hc, Hd by lia. reflexivity.
  - rewrite map_const_repeat, length_seq. reflexivity.
Qed.


Lemma formula_column_within (q delp : Quantity) (n0 n1 n2 : nat)
    (o2 e2 : Z) (i j : nat) :
  shape (data q) = [n0; n1; n2] ->
  shape (data delp) = [n0; n1; n2] ->
  within_axis n2 o2 e2 = true ->
  (i < n0)%nat -> (j < n1)%nat ->
  formula_column q delp o2 e2 i j =
    Some (map (fun k => np_multiply (item (data q) [i; j; k])
                                    (item (data delp) [i; j; k]))
              (seq (Z.to_nat o2) (Z.to_nat e2))).
Proof.
  intros Hq Hp Hin Hi Hj. apply within_axis_iff in Hin.
  unfold formula_column. apply mapM_Some. apply Forall2_fmap_r.
  apply Forall_Forall2_diag. apply Forall_forall. intros k Hk.
  apply list_elem_of_In, in_seq in Hk.
  unfold entry. rewrite Hq, Hp. cbn [in_bounds].
  destruct (Nat.ltb_spec i n0); [| lia].
  destruct (Nat.ltb_spec j n1); [| lia].
  destruct (Nat.ltb_spec k n2); [| lia].
  reflexivity.
Qed.

(** C9, amended: for a three-dimensional tracer with the vertical tag on
    axis 2 whose vertical sub-domain lies within its array, and a
    pressure thickness whose array has the same shape, the result depends
    on the pressure thickness through its array only, its origin and
    extent are not consulted; the integrator returns, and at every
    horizontal index (i, j) of the padded arrays the entry of the result
    is the sum, as the array library adds them, of the products
    q_in.data[i, j, k] * delp.data[i, j, k] for k from origin[2] up to
    origin[2] + extent[2], in that order. *)
Theorem column_integral_slice (name : string) (q delp : Quantity)
    (n0 n1 n2 : nat) (o2 e2 : Z) :
  shape (data q) = [n0; n1; n2] ->
  shape (data delp) = [n0; n1; n2] ->
  nth_error (dims q) 2 = Some Z_DIM ->
  nth_error (origin q) 2 = Some o2 ->
  nth_error (extent q) 2 = Some e2 ->
  within_axis n2 o2 e2 = true ->
  (forall delp' : Quantity, data delp' = data delp ->
     _compute_column_integral name q delp'
     = _compute_column_integral name q delp)
  /\ exists r : Quantity,
       _compute_column_integral name q delp = Ok r
       /\ shape (data r) = [n0; n1]
       /\ forall i j : nat, (i < n0)%nat -> (j < n1)%nat ->
            formula_column q delp o2 e2 i j =
              Some (map (fun k => np_multiply (item (data q) [i; j; k])
                                              (item (data delp) [i; j; k]))
                        (seq (Z.to_nat o2) (Z.to_nat e2)))
            /\ item (data r) [i; j] =
                 np_sum (map (fun k =>
                                np_multiply (item (data q) [i; j; k])
                                            (item (data delp) [i; j; k]))
                             (seq (Z.to_nat o2) (Z.to_nat e2))).
Proof.
  intros Hq Hp Hd Ho He Hin. split.
  - intros delp' Hdata. unfold _compute_column_integral. rewrite Hdata.
    reflexivity.
  - destruct (column_integral_within name q delp n0 n1 n2 o2 e2
                Hq Hp Hd Ho He Hin)
      as (r & Hr & _ & _ & _ & _ & Hs & Hitem).
    exists r. repeat split; try assumption; [| auto].
    apply (formula_column_within q delp n0 n1 n2); assumption.
Qed.

(** X13: with a vertical extent of zero, on a three-dimensional tracer
    and a pressure thickness of the same shape, the integrator returns
    normally, and every entry of the result is the sum of no values,
    wherever the vertical origin is. *)
Theorem column_integral_empty_extent (name : string) (q delp : Quantity)
    (n0 n1 n2 : nat) (o2 : Z) :
  shape (data q) = [n0; n1; n2] ->
  shape (data delp) = [n0; n1; n2] ->
  nth_error (dims q) 2 = Some Z_DIM ->
  nth_error (origin q) 2 = Some o2 ->
  nth_error (extent q) 2 = Some 0%Z ->
  exists r : Quantity,
    _compute_column_integral name q delp = Ok r
    /\ shape (data r) = [n0; n1]
    /\ forall i j : nat, (i < n0)%nat -> (j < n1)%nat ->
         item (data r) [i; j] = np_sum [].
Proof.
  intros Hq Hp Hd Ho He.
  destruct (column_integral_3d name q delp n0 n1 n2 o2 0 Hq Hp Hd Ho He)
    as (r & Hr & _ & _ & _ & _ & Hs & Hitem).
  exists r. repeat split; try assumption.
  intros i j Hi Hj. rewrite (Hitem i j Hi Hj).
  unfold slice_indices. cbn [fst snd].
  rewrite Z.add_0_r, Z.sub_diag. reflexivity.
Qed.

(** X14: only the entries within the vertical sub-domain of the tracer
    count: on three-dimensional arrays of one shape, a second tracer with
    the dims, origin and extent of the first and a second pressure
    thickness, whose arrays agree with the first ones on the levels
    [origin[2], origin[2] + extent[2]), give a result with the same
    entries. *)
Theorem column_integral_local (name : string) (q delp q' delp' : Quantity)
    (n0 n1 n2 : nat) (o2 e2 : Z) :
  shape (data q) = [n0; n1; n2] ->
  shape (data delp) = [n0; n1; n2] ->
  shape (data q') = [n0; n1; n2] ->
  shape (data delp') = [n0; n1; n2] ->
  dims q' = dims q -> origin q' = origin q -> extent q' = extent q ->
  nth_error (dims q) 2 = Some Z_DIM ->
  nth_error (origin q) 2 = Some o2 ->
  nth_error (extent q) 2 = Some e2 ->
  within_axis n2 o2 e2 = true ->
  (forall i j k : nat,
     (Z.to_nat o2 <= k < Z.to_nat o2 + Z.to_nat e2)%nat ->
     item (data q') [i; j; k] = item (data q) [i; j; k]
     /\ item (data delp') [i; j; k] = item (data delp) [i; j; k]) ->
  exists r r' : Quantity,
    _compute_column_integral name q delp = Ok r
    /\ _compute_column_integral name q' delp' = Ok r'
    /\ shape (data r') = shape (data r)
    /\ forall i j : nat, (i < n0)%nat -> (j < n1)%nat ->
         item (data r') [i; j] = item (data r) [i; j].
Proof.
  intros Hq Hp Hq' Hp' Hdq Hoq Heq Hd Ho He Hin Hagree.
  destruct (column_integral_within name q delp n0 n1 n2 o2 e2
              Hq Hp Hd Ho He Hin)
    as (r & Hr & _ & _ & _ & _ & Hs & Hitem).
  destruct (column_integral_within name q' delp' n0 n1 n2 o2 e2)
    as (r' & Hr' & _ & _ & _ & _ & Hs' & Hitem'); try assumption;
    try congruence.
  exists r, r'. repeat split; try assumption; [congruence |].
  intros i j Hi Hj. rewrite (Hitem i j Hi Hj), (Hitem' i j Hi Hj).
  f_equal. apply map_ext_in. intros k Hk. apply in_seq in Hk.
  destruct (Hagree i j k) as [-> ->]; [lia |]. reflexivity.
Qed.

(** X15: a vertical sub-domain that reaches past the end of the array of
    a three-dimensional tracer is not an error: the slice is clipped to
    the array and the sum runs over the levels that exist, from the
    origin, if it is within the array, up to the last one. *)
Theorem column_integral_clipped (name : string) (q delp : Quantity)
    (n0 n1 n2 : nat) (o2 e2 : Z) :
  shape (data q) = [n0; n1; n2] ->
  shape (data delp) = [n0; n1; n2] ->
  nth_error (dims q) 2 = Some Z_DIM ->
  nth_error (origin q) 2 = Some o2 ->
  nth_error (extent q) 2 = Some e2 ->
  (0 <= o2)%Z -> (0 <= e2)%Z -> (Z.of_nat n2 < o2 + e2)%Z ->
  exists r : Quantity,
    _compute_column_integral name q delp = Ok r
    /\ forall i j : nat, (i < n0)%nat -> (j < n1)%nat ->
         item (data r) [i; j] =
           np_sum (map (fun k =>
                          np_multiply (item (data q) [i; j; k])
                                      (item (data delp) [i; j; k]))
                       (seq (Z.to_nat o2) (n2 - Z.to_nat o2))).
Proof.
  intros Hq Hp Hd Ho He Ho0 He0 Hover.
  destruct (column_integral_3d name q delp n0 n1 n2 o2 e2 Hq Hp Hd Ho He)
    as (r & Hr & _ & _ & _ & _ & Hs & Hitem).
  exists r. split; [assumption |].
  intros i j Hi Hj. rewrite (Hitem i j Hi Hj).
  rewrite slice_indices_clipped by assumption. cbn [fst snd]. cbn zeta.
  rewrite (Nat.min_r (Z.to_nat o2 + Z.to_nat e2) n2) by lia.
  destruct (Nat.le_gt_cases (Z.to_nat o2) n2) as [Hle | Hgt].
  - rewrite Nat.min_l by assumption.
    rewrite (map_seq_from0
               (fun k => np_multiply (item (data q) [i; j; k])
                                     (item (data delp) [i; j; k]))).
    reflexivity.
  - rewrite Nat.min_r by lia.
    replace (n2 - n2)%nat with 0%nat by lia.
    replace (n2 - Z.to_nat o2)%nat with 0%nat by lia. reflexivity.
Qed.

(** X16: on a well-formed three-dimensional tracer and a pressure
    thickness of the same shape the integrator returns a well-formed
    two-dimensional quantity: one tag, origin and extent per axis of its
    array, the horizontal sub-domain within the array, and the horizontal
    tags, origin and extent of the tracer. *)
Theorem column_integral_wf_3d (name : string) (q delp : Quantity)
    (n0 n1 n2 : nat) :
  quantity_wf q = true ->
  shape (data q) = [n0; n1; n2] ->
  shape (data delp) = [n0; n1; n2] ->
  nth_error (dims q) 2 = Some Z_DIM ->
  exists r : Quantity,
    _compute_column_integral name q delp = Ok r
    /\ quantity_wf r = true
    /\ quantity_invariant r = true
    /\ shape (data r) = [n0; n1]
    /\ dims r = take 2 (dims q)
    /\ origin r = take 2 (origin q)
    /\ extent r = take 2 (extent q).
Proof.
  intros Hwf Hq Hp Hd. unfold quantity_wf, ndim in Hwf. rewrite Hq in Hwf.
  apply andb_prop in Hwf as [Hlen Hsub]. apply Nat.eqb_eq in Hlen.
  apply subdomain_ok_3d in Hsub
    as (o0 & o1 & o2 & e0 & e1 & e2 & Hor & Hex & H0 & H1 & H2).
  destruct (column_integral_3d name q delp n0 n1 n2 o2 e2)
    as (r & Hr & Hdr & Horr & Hexr & _ & Hs & _);
    try assumption; try (rewrite ?Hor, ?Hex; reflexivity).
  exists r. repeat split; try assumption.
  - unfold quantity_wf, ndim.
    rewrite Hdr, Hs, Horr, Hexr, Hor, Hex, length_take, Hlen.
    cbn [subdomain_ok take]. rewrite H0, H1. reflexivity.
  - apply quantity_invariant_holds.
Qed.

(** X18: the shapes of the two arrays are not compared: a pressure
    thickness holding a single column, of shape (1, 1, Z), is accepted for
    a tracer of shape (X, Y, Z), and that one column is applied at every
    horizontal index. *)
Theorem column_integral_broadcast_column (name : string) (q delp : Quantity)
    (n0 n1 n2 : nat) (o2 e2 : Z) :
  nth_error (dims q) 2 = Some Z_DIM ->
  nth_error (origin q) 2 = Some o2 ->
  nth_error (extent q) 2 = Some e2 ->
  within_axis n2 o2 e2 = true ->
  shape (data q) = [n0; n1; n2] ->
  shape (data delp) = [1; 1; n2]%nat ->
  exists r : Quantity,
    _compute_column_integral name q delp = Ok r
    /\ shape (data r) = [n0; n1]
    /\ forall i j : nat, (i < n0)%nat -> (j < n1)%nat ->
         item (data r) [i; j] =
           np_sum (map (fun k =>
                          np_multiply (item (data q) [i; j; k])
                                      (item (data delp) [0; 0; k]%nat))
                       (seq (Z.to_nat o2) (Z.to_nat e2))).
Proof.
  intros Hd Ho He Hin Hq Hp.
  destruct (column_integral_steps name q delp n0 n1 n2 Hq Hd)
    as (o0 & o1 & o2' & e0 & e1 & e2' & d0 & d1 & Hor & Hex & Hdims & Hrun).
  rewrite Hor in Ho. rewrite Hex in He. cbn in Ho, He.
  injection Ho as ->. injection He as ->.
  rewrite Hrun. clear Hrun.
  unfold slice_axis2. rewrite Hp, (slice_indices_within _ _ _ Hin).
  py_step. unfold multiply. cbn [shape].
  rewrite broadcast_shapes_column. py_step.
  unfold sum_axis2. cbn [shape]. py_step.
  match goal with
  | |- exists r, Quantity_init ?a ?ds ?os ?es ?u = Ok r /\ _ =>
      destruct (Quantity_init_Ok a ds os es u eq_refl)
        as (r & Hr & Hdata & _)
  end.
  exists r. rewrite Hr, Hdata. split; [reflexivity |]. split; [reflexivity |].
  intros i j Hi Hj. cbn [item insert_axis2].
  rewrite <- (map_seq_from0
                (fun k => np_multiply (item (data q) [i; j; k])
                                      (item (data delp) [0; 0; k]%nat))).
  f_equal. apply map_ext_in. intros k Hk. apply in_seq in Hk.
  rewrite broadcast_index_id by (repeat constructor; lia).
  unfold broadcast_index. cbn [length Nat.sub drop zip_with shift_axis2].
  rewrite (broadcast_axis_lt (Z.to_nat e2) k) by lia. reflexivity.
Qed.

(** X19: a pressure thickness that does not fit the tracer is an error of
    the array operations, after the checks on the tracer have passed: an
    IndexError when its array has fewer than three axes, a ValueError when
    the first axes of two three-dimensional arrays differ and neither has
    length one. *)
Theorem column_integral_delp_errors (name : string) (q delp : Quantity)
    (n0 n1 n2 : nat) (rest : list nat) (o2 e2 : Z) :
  nth_error (dims q) 2 = Some Z_DIM ->
  nth_error (origin q) 2 = Some o2 ->
  nth_error (extent q) 2 = Some e2 ->
  shape (data q) = n0 :: n1 :: n2 :: rest ->
  ((ndim (data delp) < 3)%nat ->
     _compute_column_integral name q delp = Raise IndexError)
  /\ (forall m0 m1 : nat,
        rest = [] -> shape (data delp) = [m0; m1; n2] ->
        n0 <> m0 -> n0 <> 1%nat -> m0 <> 1%nat ->
        exists msg,
          _compute_column_integral name q delp = Raise (ValueError msg)).
Proof.
  intros Hd Ho He Hq.
  assert (Hlen : (2 <? length (dims q))%nat = true).
  { apply Nat.ltb_lt. apply nth_error_Some. congruence. }
  split.
  - intros Hrank. unfold _compute_column_integral.
    rewrite Hlen, (getitem_nth _ _ _ Hd), (getitem_nth _ _ _ Ho),
      (getitem_nth _ _ _ He).
    py_step. rewrite String.eqb_refl. cbn [negb].
    unfold slice_axis2. rewrite Hq.
    destruct (slice_indices o2 (o2 + e2) n2) as [lo cnt]. py_step.
    unfold ndim in Hrank.
    destruct (shape (data delp)) as [| ? [| ? [| ? ?]]]; cbn in Hrank;
      try lia; reflexivity.
  - intros m0 m1 -> Hp Hne Hn Hm. unfold _compute_column_integral.
    rewrite Hlen, (getitem_nth _ _ _ Hd), (getitem_nth _ _ _ Ho),
      (getitem_nth _ _ _ He).
    py_step. rewrite String.eqb_refl. cbn [negb].
    unfold slice_axis2. rewrite Hq, Hp.
    destruct (slice_indices o2 (o2 + e2) n2) as [lo cnt]. py_step.
    unfold multiply, broadcast_shapes. cbn [shape rev app broadcast_aligned].
    destruct (Nat.eqb_spec n0 m0); [contradiction |].
    destruct (Nat.eqb_spec n0 1); [contradiction |].
    destruct (Nat.eqb_spec m0 1); [contradiction |].
    py_step. eexists; reflexivity.
Qed.

(** X22: the tags, origin, extent and units of the result come from the
    tags, origin and extent of the tracer alone: two runs that return, on
    tracers with the same tags, origin and extent, give the same ones,
    whatever the arrays, the units of the tracers and the pressure
    thicknesses are; the units are "kg/m**2". *)
Theorem column_integral_metadata (name name' : string)
    (q q' delp delp' r r' : Quantity) :
  dims q' = dims q -> origin q' = origin q -> extent q' = extent q ->
  _compute_column_integral name q delp = Ok r ->
  _compute_column_integral name' q' delp' = Ok r' ->
  dims r' = dims r /\ origin r' = origin r /\ extent r' = extent r
  /\ units r' = units r /\ units r = "kg/m**2".
Proof.
  intros Hd Ho He Hr Hr'.
  apply column_integral_Ok_metadata in Hr
    as (_ & _ & _ & Hdr & Hor & Her & Hur).
  apply column_integral_Ok_metadata in Hr'
    as (_ & _ & _ & Hdr' & Hor' & Her' & Hur').
  rewrite Hdr, Hdr', Hor, Hor', Her, Her', Hur, Hur', Hd, Ho, He.
  repeat split.
Qed.

(** ** Factory *)

Ltac fs_step :=
  cbn [bind ret fs_monad];
  unfold fs_bind, outside, fs_raise, zarr_DirectoryStore;
  cbn [negb add_outside outside_calls fst snd].

Ltac fs_case :=
  match goal with
  | |- context [outside_response ?h ?c] =>
      let E := fresh "Hresp" in
      destruct (outside_response h c) as [[] | ?] eqn:E
  end.

Tactic Notation "fs_case_in" hyp(H) :=
  match type of H with
  | context [outside_response ?h ?c] =>
      let E := fresh "Hresp" in
      destruct (outside_response h c) as [[] | ?] eqn:E
  end.

(** With a path the factory never returns the no-op variant. *)
Lemma factory_with_path_not_null (zs : bool) (cfg : DiagnosticsConfig)
    (c : Communicator) (fs fs' : FileSystem) (dir : string) :
  path cfg = Some dir ->
  diagnostics_factory zs cfg c fs <> (fs', Ok NullDiagnostics).
Proof.
  intros Hp. unfold diagnostics_factory. rewrite Hp.
  destruct (String.eqb (output_format cfg) "zarr");
    [destruct zs | destruct (String.eqb (output_format cfg) "netcdf")];
    fs_step; repeat (fs_case; fs_step); discriminate.
Qed.

(** X3: for a configuration the constructor accepted, the factory returns
    the no-op variant only when no path was given; then no raw or derived
    name was requested, and the filesystem is left as it was. *)
Theorem factory_null_nothing_requested (zs : bool) (p : option string)
    (fmt : string) (tcs : Z) (ns ds : list string) (cfg : DiagnosticsConfig)
    (c : Communicator) (fs fs' : FileSystem) :
  DiagnosticsConfig_init p fmt tcs ns ds = Ok cfg ->
  diagnostics_factory zs cfg c fs = (fs', Ok NullDiagnostics) ->
  p = None /\ ns = [] /\ ds = [] /\ fs' = fs.
Proof.
  intros Hcfg Hf. apply config_init_accepts in Hcfg as (Hreq & _ & ->).
  destruct p as [dir |].
  - exfalso. revert Hf. apply factory_with_path_not_null with (dir := dir).
    reflexivity.
  - cbn in Hf. injection Hf as <-.
    destruct Hreq as [[-> ->] | H]; [auto | contradiction].
Qed.

Ltac fs_case_ok Hall :=
  match goal with
  | |- context [outside_response ?h ?c] =>
      let E := fresh "Hresp" in
      let X := fresh "Hok" in
      destruct (outside_response h c) as [[] | ?] eqn:E;
      [ | | exfalso; pose proof (Hall h c) as X; rewrite E in X;
            discriminate X ]
  end.

Ltac elem_inv H :=
  repeat (apply elem_of_cons in H as [H | H];
          [try discriminate H; try (injection H as ->) |]);
  [.. | inversion H].

(** X4: for a configuration the constructor accepted, with a path, what
    the factory returns, when it returns, is the monitor variant carrying
    the two name lists as configured, on a ZarrMonitor on a directory
    store of the path with the partitioner and the comm of the
    communicator for "zarr", on a NetCDFMonitor on the path, the
    communicator and the chunk size for "netcdf"; and it does return when
    the zarr storage module is present or the format is "netcdf" and
    every call on the filesystem, the storage module and the monitor
    constructors returns. *)
Theorem factory_monitor (zs : bool) (dir fmt : string) (tcs : Z)
    (ns ds : list string) (cfg : DiagnosticsConfig) (c : Communicator)
    (fs : FileSystem) :
  DiagnosticsConfig_init (Some dir) fmt tcs ns ds = Ok cfg ->
  let monitored :=
    Monitored
      (if String.eqb fmt "zarr"
       then ZarrMonitor (DirectoryStore dir) (partitioner c) (comm c)
       else NetCDFMonitor dir c tcs)
      {| md_names := ns; md_derived_names := ds |} in
  (forall (fs' : FileSystem) (d : Diagnostics),
     diagnostics_factory zs cfg c fs = (fs', Ok d) -> d = monitored)
  /\ (zs = true \/ fmt = "netcdf" ->
      (forall (h : list OutsideCall) (call : OutsideCall),
         is_ok (outside_response h call) = true) ->
      exists fs' : FileSystem,
        diagnostics_factory zs cfg c fs = (fs', Ok monitored)).
Proof.
  intros Hcfg. apply config_init_accepts in Hcfg as (_ & Hfmt & ->).
  cbn zeta. unfold diagnostics_factory. cbn [path output_format
    time_chunk_size names derived_names]. split.
  - intros fs' d.
    destruct Hfmt as [-> | ->]; cbn [String.eqb Ascii.eqb Bool.eqb];
      [destruct zs |]; cbn match;
      fs_step; repeat (fs_case; fs_step); intros [= <- <-] || discriminate;
      reflexivity.
  - intros Hz Hall.
    destruct Hfmt as [-> | ->]; cbn [String.eqb Ascii.eqb Bool.eqb];
      [destruct Hz as [-> | Hz]; [| discriminate Hz] |]; cbn match;
      fs_step; repeat (fs_case_ok Hall; fs_step); eexists; reflexivity.
Qed.

(** X5: for a configuration the constructor accepted, an exception that
    leaves the factory is either the AttributeError of the attribute
    access on the missing zarr storage module, on the "zarr" format, or
    the exception raised by the last call made on the filesystem, the
    storage module or a monitor constructor; the ValueError branch of the
    factory is never reached. *)
Theorem factory_failure (zs : bool) (p : option string) (fmt : string)
    (tcs : Z) (ns ds : list string) (cfg : DiagnosticsConfig)
    (c : Communicator) (fs fs' : FileSystem) (e : exn) :
  DiagnosticsConfig_init p fmt tcs ns ds = Ok cfg ->
  diagnostics_factory zs cfg c fs = (fs', Raise e) ->
  exists dir : string,
    p = Some dir
    /\ ((zs = false /\ fmt = "zarr" /\ e = AttributeError "DirectoryStore")
        \/ (exists (h : list OutsideCall) (call : OutsideCall),
              outside_calls fs' = h ++ [call]
              /\ outside_response h call = Raise e)).
Proof.
  intros Hcfg. apply config_init_accepts in Hcfg as (_ & Hfmt & ->).
  unfold diagnostics_factory. cbn [path output_format
    time_chunk_size names derived_names].
  destruct p as [dir |]; [| discriminate].
  intros Hf. exists dir. split; [reflexivity |]. revert Hf.
  destruct Hfmt as [-> | ->]; cbn [String.eqb Ascii.eqb Bool.eqb];
    [destruct zs |]; cbn match;
    fs_step; repeat (fs_case; fs_step);
    intros [= <- <-] || discriminate;
    first [ left; repeat split; reflexivity
          | right; eexists _, _; split; [reflexivity | eassumption] ].
Qed.

(** X6: with a path, whatever the outcome of the factory, its first call
    is [get_fs] on the path; [makedirs] is called only on the path, and
    only after [exists] on the path has returned False; and when [exists]
    returns False, [makedirs] is the next call, and the only call of
    [makedirs]. *)
Theorem factory_directory (zs : bool) (cfg : DiagnosticsConfig)
    (c : Communicator) (fs : FileSystem) (dir : string) :
  path cfg = Some dir ->
  let h := outside_calls fs in
  exists rest : list OutsideCall,
    outside_calls (fst (diagnostics_factory zs cfg c fs))
      = h ++ GetFs dir :: rest
    /\ (forall d : string,
          FsMakedirs d ∈ rest ->
          d = dir
          /\ is_ok (outside_response h (GetFs dir)) = true
          /\ outside_response (h ++ [GetFs dir]) (FsExists dir) = Ok false)
    /\ (is_ok (outside_response h (GetFs dir)) = true ->
        outside_response (h ++ [GetFs dir]) (FsExists dir) = Ok false ->
        exists rest' : list OutsideCall,
          rest = FsExists dir :: FsMakedirs dir :: rest'
          /\ forall d : string, ~ (FsMakedirs d ∈ rest')).
Proof.
  intros Hp. cbn zeta. unfold diagnostics_factory. rewrite Hp.
  destruct (String.eqb (output_format cfg) "zarr");
    [destruct zs | destruct (String.eqb (output_format cfg) "netcdf")];
    fs_step; repeat (fs_case; fs_step);
    (eexists; split; [rewrite <- ?app_assoc; cbn [app]; reflexivity |]);
    (split;
     [ intros d Hd; elem_inv Hd; repeat split
     | intros H1 H2;
       first [ discriminate H1 | discriminate H2
             | eexists; split; [reflexivity |];
               intros d Hd; elem_inv Hd ] ]).
Qed.

End Driver.

(** * Concrete runs

    The vertical tag is "z"; the arithmetic is binary64. *)

Ltac elem_cases H :=
  repeat (apply elem_of_cons in H as [-> | H]); [.. | inversion H].

(** ** Configuration *)

Lemma config_invalid_raises_witness :
  (exists msg, DiagnosticsConfig_init None "zarr" 1 ["u"] [] = Raise (ValueError msg))
  /\ (exists msg, DiagnosticsConfig_init (Some "/tmp/out") "hdf5" 1 [] []
                  = Raise (ValueError msg)).
Proof.
  split.
  - apply config_invalid_raises. left. split; [left; discriminate | reflexivity].
  - apply config_invalid_raises. right. split; discriminate.
Defined.

Lemma config_empty_names_ok_witness :
  DiagnosticsConfig_init None "netcdf" 4 [] [] =
    Ok {| path := None; output_format := "netcdf"; time_chunk_size := 4;
          names := []; derived_names := [] |}.
Proof. apply config_empty_names_ok. right. reflexivity. Defined.

(** C4 as stated fails: both name lists are empty, and construction
    raises because of the output format. *)
Lemma config_empty_names_bad_format :
  DiagnosticsConfig_init None "hdf5" 1 [] [] =
    Raise (ValueError "output_format must be one of 'zarr' or 'netcdf', got hdf5")
  /\ ~ (forall (p : option string) (fmt : string) (tcs : Z),
          is_ok (DiagnosticsConfig_init p fmt tcs [] []) = true).
Proof.
  split; [reflexivity |].
  intros H. specialize (H None "hdf5" 1%Z). discriminate H.
Qed.

Lemma config_init_error_witness :
  DiagnosticsConfig_init None "hdf5" 1 ["u"] [] =
    Raise (ValueError "DiagnosticsConfig.path must be given to enable diagnostics")
  /\ DiagnosticsConfig_init None "hdf5" 1 [] [] =
       Raise (ValueError "output_format must be one of 'zarr' or 'netcdf', got hdf5").
Proof.
  split.
  - apply (proj1 (config_init_error None "hdf5" 1 ["u"] []));
      [left; discriminate | reflexivity].
  - apply (proj2 (config_init_error None "hdf5" 1 [] []));
      [left; split; reflexivity | discriminate | discriminate].
Defined.

(** ** ColumnIntegrator *)

Lemma column_integral_fails_loudly_witness :
  _compute_column_integral "z" "column_integrated_phis" phis_sample delp_sample
    = Raise AssertionError
  /\ exists msg,
       _compute_column_integral "z" "column_integrated_t" transposed_sample
         delp_sample = Raise (NotImplementedError msg).
Proof.
  split.
  - apply (proj1 (column_integral_fails_loudly "z" "column_integrated_phis"
                    phis_sample delp_sample)).
    simpl. lia.
  - apply (proj2 (column_integral_fails_loudly "z" "column_integrated_t"
                    transposed_sample delp_sample) "x");
      [reflexivity | discriminate].
Defined.

Lemma column_integral_constant_witness :
  exists r : Quantity,
    _compute_column_integral "z" "column_integrated_qv" qv_sample delp_sample
      = Ok r
    /\ units r = "kg/m**2"
    /\ shape (data r) = [2; 2]%nat
    /\ forall i j : nat, (i < 2)%nat -> (j < 2)%nat ->
         item (data r) [i; j] =
           np_sum (repeat (np_multiply (f64 1 (-1)) (f64 4 0)) 3).
Proof.
  apply (column_integral_constant "z" "column_integrated_qv" qv_sample
           delp_sample 2 2 3 (f64 1 (-1)) (f64 4 0));
    try reflexivity; intros; reflexivity.
Defined.

(** The sample column: three times 1/2 * 4 is 6, exactly. *)
Example column_integral_constant_value :
  np_sum (repeat (np_multiply (f64 1 (-1)) (f64 4 0)) 3) = f64 6 0.
Proof. vm_compute. reflexivity. Qed.

(** C2 as stated fails in floating point.  The tracer is one column of
    six levels filled with the double 0.1, the pressure thickness is
    filled with 1, the vertical sub-domain covers the six levels: the
    integral is the double 0.6, which six additions of 0.1 give, and not
    the double 0.6000000000000001, which is c * d * Z however the two
    products are grouped. *)
Lemma column_integral_constant_rounding :
  data tenth_sample = full [1; 1; 6]%nat f64_tenth
  /\ data unit_delp_sample = full [1; 1; 6]%nat (f64 1 0)
  /\ nth_error (dims tenth_sample) 2 = Some "z"
  /\ nth_error (origin tenth_sample) 2 = Some 0%Z
  /\ nth_error (extent tenth_sample) 2 = Some 6%Z
  /\ exists r : Quantity,
       _compute_column_integral "z" "column_integrated_qv" tenth_sample
         unit_delp_sample = Ok r
       /\ item (data r) [0; 0]%nat = S754_finite false 5404319552844595 (-53)
       /\ f64_multiply (f64_multiply f64_tenth (f64 1 0)) (f64 6 0)
          = S754_finite false 5404319552844596 (-53)
       /\ f64_multiply f64_tenth (f64_multiply (f64 1 0) (f64 6 0))
          = S754_finite false 5404319552844596 (-53)
       /\ item (data r) [0; 0]%nat
          <> f64_multiply (f64_multiply f64_tenth (f64 1 0)) (f64 6 0).
Proof.
  repeat (split; [reflexivity |]).
  eexists. split; [reflexivity |].
  split; [vm_compute; reflexivity |].
  split; [vm_compute; reflexivity |].
  split; [vm_compute; reflexivity |].
  vm_compute. discriminate.
Qed.


(** A four-dimensional tracer with the vertical tag on axis 2: the sum
    has three axes, three dimension tags are left, and the constructor of
    the result refuses the two-entry origin. *)
Example column_integral_trailing_axis :
  _compute_column_integral "z" "column_integrated_species" species_sample
    species_delp_sample
  = Raise (ValueError "received 2 origins for 3 dimensions: (0, 0)").
Proof. reflexivity. Qed.

Lemma column_integral_slice_witness :
  (forall delp' : Quantity, data delp' = data halo_delp_sample ->
     _compute_column_integral "z" "column_integrated_qv" halo_sample delp'
     = _compute_column_integral "z" "column_integrated_qv" halo_sample
         halo_delp_sample)
  /\ exists r : Quantity,
       _compute_column_integral "z" "column_integrated_qv" halo_sample
         halo_delp_sample = Ok r
       /\ shape (data r) = [3; 3]%nat
       /\ forall i j : nat, (i < 3)%nat -> (j < 3)%nat ->
            formula_column halo_sample halo_delp_sample 1 2 i j =
              Some (map (fun k =>
                           np_multiply (item (data halo_sample) [i; j; k])
                                       (item (data halo_delp_sample) [i; j; k]))
                        (seq 1 2))
            /\ item (data r) [i; j] =
                 np_sum (map (fun k =>
                                np_multiply (item (data halo_sample) [i; j; k])
                                            (item (data halo_delp_sample) [i; j; k]))
                             (seq 1 2)).
Proof.
  apply (column_integral_slice "z" "column_integrated_qv" halo_sample
           halo_delp_sample 3 3 4 1 2); reflexivity.
Defined.

(** The halo point (0, 0) of the sample: levels 1 and 2 contribute
    100 * 2 and 200 * 2; levels 0 and 3 lie outside the vertical
    sub-domain. *)
Example column_integral_halo_point :
  exists r : Quantity,
    _compute_column_integral "z" "column_integrated_qv" halo_sample
      halo_delp_sample = Ok r
    /\ item (data r) [0; 0]%nat = f64 600 0
    /\ item (data r) [2; 1]%nat = f64 (2 * (112 + 212)) 0.
Proof. eexists. split; [reflexivity |]. split; vm_compute; reflexivity. Qed.

(** C9 as stated fails.  On the tracer whose vertical sub-domain is
    [2, 7) in an array of four levels the integrator returns, and the
    entry at (1, 1) is the sum over the levels 2 and 3 only: the slice is
    clipped, and the formula of the claim reads levels that do not exist.
    On a pressure thickness that holds a single column the integrator
    returns as well, by broadcasting, and the entry at (1, 1) is computed
    from the column at (0, 0): the pressure thickness has no entry at
    (1, 1, k). *)
Lemma column_integral_slice_clipped :
  (nth_error (dims overlong_sample) 2 = Some "z"
   /\ nth_error (origin overlong_sample) 2 = Some 2%Z
   /\ nth_error (extent overlong_sample) 2 = Some 5%Z
   /\ shape (data overlong_sample) = [3; 3; 4]%nat
   /\ shape (data halo_delp_sample) = [3; 3; 4]%nat
   /\ exists r : Quantity,
        _compute_column_integral "z" "column_integrated_qv" overlong_sample
          halo_delp_sample = Ok r
        /\ item (data r) [1; 1]%nat =
             np_sum (map (fun k =>
                            np_multiply
                              (item (data overlong_sample) [1; 1; k]%nat)
                              (item (data halo_delp_sample) [1; 1; k]%nat))
                         [2; 3]%nat)
        /\ formula_column overlong_sample halo_delp_sample 2 5 1 1 = None)
  /\ (nth_error (dims qv_sample) 2 = Some "z"
      /\ nth_error (origin qv_sample) 2 = Some 0%Z
      /\ nth_error (extent qv_sample) 2 = Some 3%Z
      /\ shape (data qv_sample) = [2; 2; 3]%nat
      /\ shape (data column_delp_sample) = [1; 1; 3]%nat
      /\ exists r : Quantity,
           _compute_column_integral "z" "column_integrated_qv" qv_sample
             column_delp_sample = Ok r
           /\ item (data r) [1; 1]%nat =
                np_sum (map (fun k =>
                               np_multiply
                                 (item (data qv_sample) [1; 1; k]%nat)
                                 (item (data column_delp_sample) [0; 0; k]%nat))
                            [0; 1; 2]%nat)
           /\ formula_column qv_sample column_delp_sample 0 3 1 1 = None).
Proof.
  split; repeat (split; [reflexivity |]);
    (eexists; split; [reflexivity |]; split; reflexivity).
Qed.

Lemma column_integral_empty_extent_witness :
  exists r : Quantity,
    _compute_column_integral "z" "column_integrated_qv" empty_column_sample
      halo_delp_sample = Ok r
    /\ shape (data r) = [3; 3]%nat
    /\ forall i j : nat, (i < 3)%nat -> (j < 3)%nat ->
         item (data r) [i; j] = np_sum [].
Proof.
  apply (column_integral_empty_extent "z" "column_integrated_qv"
           empty_column_sample halo_delp_sample 3 3 4 1);
    reflexivity.
Defined.

Lemma column_integral_local_witness :
  exists r r' : Quantity,
    _compute_column_integral "z" "column_integrated_qv" halo_sample
      halo_delp_sample = Ok r
    /\ _compute_column_integral "z" "column_integrated_qv"
         halo_changed_sample halo_delp_changed_sample = Ok r'
    /\ shape (data r') = shape (data r)
    /\ forall i j : nat, (i < 3)%nat -> (j < 3)%nat ->
         item (data r') [i; j] = item (data r) [i; j].
Proof.
  apply (column_integral_local "z" "column_integrated_qv" halo_sample
           halo_delp_sample halo_changed_sample halo_delp_changed_sample
           3 3 4 1 2);
    try reflexivity.
  intros i j k Hk.
  cbn [halo_changed_sample halo_delp_changed_sample data
       outside_levels_changed item].
  assert (Hin : ((1 <=? k) && (k <? 3))%nat = true).
  { apply andb_true_intro. split; [apply Nat.leb_le | apply Nat.ltb_lt];
      cbn in Hk; lia. }
  rewrite Hin. split; reflexivity.
Defined.

Lemma column_integral_clipped_witness :
  exists r : Quantity,
    _compute_column_integral "z" "column_integrated_qv" overlong_sample
      halo_delp_sample = Ok r
    /\ forall i j : nat, (i < 3)%nat -> (j < 3)%nat ->
         item (data r) [i; j] =
           np_sum (map (fun k =>
                          np_multiply (item (data overlong_sample) [i; j; k])
                                      (item (data halo_delp_sample) [i; j; k]))
                       (seq 2 2)).
Proof.
  apply (column_integral_clipped "z" "column_integrated_qv" overlong_sample
           halo_delp_sample 3 3 4 2 5);
    try reflexivity; lia.
Defined.

Lemma column_integral_wf_3d_witness :
  exists r : Quantity,
    _compute_column_integral "z" "column_integrated_qv" halo_sample
      halo_delp_sample = Ok r
    /\ quantity_wf r = true
    /\ quantity_invariant r = true
    /\ shape (data r) = [3; 3]%nat
    /\ dims r = ["x"; "y"]
    /\ origin r = [1; 1]%Z
    /\ extent r = [1; 1]%Z.
Proof.
  apply (column_integral_wf_3d "z" "column_integrated_qv" halo_sample
           halo_delp_sample 3 3 4);
    reflexivity.
Defined.

Lemma column_integral_broadcast_column_witness :
  exists r : Quantity,
    _compute_column_integral "z" "column_integrated_qv" qv_sample
      column_delp_sample = Ok r
    /\ shape (data r) = [2; 2]%nat
    /\ forall i j : nat, (i < 2)%nat -> (j < 2)%nat ->
         item (data r) [i; j] =
           np_sum (map (fun k =>
                          np_multiply (item (data qv_sample) [i; j; k])
                                      (item (data column_delp_sample) [0; 0; k]%nat))
                       (seq 0 3)).
Proof.
  apply (column_integral_broadcast_column "z" "column_integrated_qv" qv_sample
           column_delp_sample 2 2 3 0 3);
    reflexivity.
Defined.

(** The single column 1, 2, 3 against the tracer filled with 1/2: 3 at
    the far corner too. *)
Example column_integral_broadcast_value :
  exists r : Quantity,
    _compute_column_integral "z" "column_integrated_qv" qv_sample
      column_delp_sample = Ok r
    /\ item (data r) [1; 1]%nat = f64 3 0.
Proof. eexists. split; [reflexivity | vm_compute; reflexivity]. Qed.

Lemma column_integral_delp_errors_witness :
  _compute_column_integral "z" "column_integrated_qv" qv_sample phis_sample
    = Raise IndexError
  /\ exists msg,
       _compute_column_integral "z" "column_integrated_qv" qv_sample
         wide_delp_sample = Raise (ValueError msg).
Proof.
  split.
  - apply (proj1 (column_integral_delp_errors "z" "column_integrated_qv"
                    qv_sample phis_sample 2 2 3 [] 0 3
                    eq_refl eq_refl eq_refl eq_refl)).
    cbn. lia.
  - apply (proj2 (column_integral_delp_errors "z" "column_integrated_qv"
                    qv_sample wide_delp_sample 2 2 3 [] 0 3
                    eq_refl eq_refl eq_refl eq_refl) 3%nat 2%nat);
      try reflexivity; lia.
Defined.

Lemma column_integral_metadata_witness :
  exists r r' : Quantity,
    _compute_column_integral "z" "column_integrated_qv" qv_sample delp_sample
      = Ok r
    /\ _compute_column_integral "z" "column_integrated_u" qv_other_sample
         column_delp_sample = Ok r'
    /\ dims r' = dims r /\ origin r' = origin r /\ extent r' = extent r
    /\ units r' = units r /\ units r = "kg/m**2".
Proof.
  do 2 eexists. split; [reflexivity |]. split; [reflexivity |].
  eapply (column_integral_metadata "z" "column_integrated_qv"
            "column_integrated_u" qv_sample qv_other_sample
            delp_sample column_delp_sample);
    reflexivity.
Defined.

(** ** store and the derived state *)


Lemma unsupported_derived_name_skipped_witness :
  exists out1 : gmap string Value,
    for_each ["column_integrated_qv"] (derived_body "z" state_sample) ∅ world0
      = (world0, Ok out1)
    /\ derived_body "z" state_sample "not_a_real_diagnostic" out1 world0
       = (add_warning world0
            "not_a_real_diagnostic is not a supported diagnostic variable.",
          Ok out1)
    /\ _get_derived_state "z" diag_unsupported state_sample world0
       = for_each ["column_integrated_u"] (derived_body "z" state_sample) out1
           (add_warning world0
              "not_a_real_diagnostic is not a supported diagnostic variable.")
    /\ forall (w' : World) (out : gmap string Value),
         _get_derived_state "z" diag_unsupported state_sample world0
           = (w', Ok out) ->
         out !! "not_a_real_diagnostic" = None
         /\ "not_a_real_diagnostic is not a supported diagnostic variable."
            ∈ warnings w'.
Proof.
  eexists. split; [reflexivity |].
  apply (unsupported_derived_name_skipped "z" diag_unsupported state_sample
           "not_a_real_diagnostic" ["column_integrated_qv"]
           ["column_integrated_u"] world0 world0);
    reflexivity.
Defined.

(** The run of the resolver on the sample: one warning, two entries. *)
Example get_derived_state_sample :
  exists out : gmap string Value,
    _get_derived_state "z" diag_unsupported state_sample world0
      = (add_warning world0
           "not_a_real_diagnostic is not a supported diagnostic variable.",
         Ok out)
    /\ dom out = {[ "column_integrated_qv"; "column_integrated_u" ]}.
Proof. eexists. split; reflexivity. Qed.

Lemma missing_tracer_raises_witness :
  (exists (w' : World) (e : exn) (new : list string),
      store "z" backend_accepts diag_missing_tracer t0 state_sample world0
        = (w', Raise e)
      /\ monitor_calls w' = monitor_calls world0
      /\ warnings w' = warnings world0 ++ new
      /\ ~ (unsupported_msg "column_integrated_missing" ∈ new)
      /\ forall msg, msg ∈ new ->
           exists n, n ∈ md_derived_names diag_missing_tracer
                     /\ startswith n column_integrated_ = false
                     /\ msg = unsupported_msg n)
  /\ store "z" backend_accepts diag_missing_tracer t0 state_sample world0
     = (world0, Raise (AttributeError "missing")).
Proof.
  assert (Hin : "column_integrated_missing" ∈ md_derived_names diag_missing_tracer)
    by (apply elem_of_cons; left; reflexivity).
  pose proof (missing_tracer_raises "z" backend_accepts diag_missing_tracer t0
                state_sample "missing" world0 Hin eq_refl) as [Hany Hexact].
  split; [exact Hany |].
  eapply (Hexact [] [] _ world0 ∅); reflexivity.
Defined.

Lemma store_one_record_witness :
  exists m : gmap string Value,
    store "z" backend_accepts diag_sample t0 state_sample world0
      = (add_call world0 (MonitorStore m),
         backend_accepts (monitor_calls world0) (MonitorStore m))
    /\ dom m = {[ "time" ]} ∪ list_to_set ["u"; "v"]
               ∪ list_to_set ["column_integrated_qv"]
    /\ ("time" ∉ md_names diag_sample -> m !! "time" = Some (VTime t0))
    /\ (forall n, n ∈ md_names diag_sample ->
          n ∉ md_derived_names diag_sample ->
          exists q, lookup_raw state_sample n = Ok q
                    /\ m !! n = Some (VQuantity q))
    /\ (forall n, n ∈ md_derived_names diag_sample ->
          exists r, column_integrated "z" state_sample n = Ok r
                    /\ m !! n = Some (VQuantity r)).
Proof.
  apply (store_one_record "z" backend_accepts diag_sample t0 state_sample
           world0).
  - intros n Hn. elem_cases Hn.
    + left. exists qv_sample. reflexivity.
    + right. exists qv_sample. reflexivity.
  - intros n Hn. elem_cases Hn.
    exists "qv", qv_sample, delp_sample. eexists.
    repeat split; reflexivity.
Defined.

(** C1 as stated fails.  On the sample state every raw name resolves and
    the derived name "column_integrated_phis" has its tracer on the dycore
    state, but the tracer is two-dimensional: [store] raises and the
    monitor receives nothing.  On a state with attributes "time" and
    "column_integrated_qv" requested as raw names, the one record handed
    over maps "time" to a quantity, not to the time value, and the raw name
    "column_integrated_qv" to the column integral, not to the looked-up
    quantity. *)
Lemma store_record_exceptions :
  ((forall n, n ∈ md_names diag_surface ->
      is_Some (dycore_state state_sample !! n)
      \/ is_Some (physics_state state_sample !! n))
   /\ (forall n, n ∈ md_derived_names diag_surface ->
         exists tracer, n = (column_integrated_ ++ tracer)%string
                        /\ is_Some (dycore_state state_sample !! tracer))
   /\ store "z" backend_accepts diag_surface t0 state_sample world0
      = (world0, Raise AssertionError))
  /\ ((forall n, n ∈ md_names diag_collide ->
         is_Some (dycore_state state_collide !! n)
         \/ is_Some (physics_state state_collide !! n))
      /\ (forall n, n ∈ md_derived_names diag_collide ->
            exists tracer, n = (column_integrated_ ++ tracer)%string
                           /\ is_Some (dycore_state state_collide !! tracer))
      /\ exists (m : gmap string Value) (r : Quantity),
           store "z" backend_accepts diag_collide t0 state_collide world0
             = ({| monitor_calls := [MonitorStore m]; warnings := [] |}, Ok tt)
           /\ m !! "time" = Some (VQuantity phis_sample)
           /\ lookup_raw state_collide "column_integrated_qv" = Ok phis_sample
           /\ m !! "column_integrated_qv" = Some (VQuantity r)
           /\ units r = "kg/m**2"
           /\ units phis_sample = "m**2/s**2").
Proof.
  split; split.
  - intros n Hn. elem_cases Hn.
    + left. exists qv_sample. reflexivity.
    + right. exists qv_sample. reflexivity.
  - split; [| reflexivity].
    intros n Hn. elem_cases Hn.
    exists "phis". split; [reflexivity | exists phis_sample; reflexivity].
  - intros n Hn. elem_cases Hn; left; exists phis_sample; reflexivity.
  - split.
    + intros n Hn. elem_cases Hn.
      exists "qv". split; [reflexivity | exists qv_sample; reflexivity].
    + do 2 eexists. split.
      * erewrite (store_steps "z" backend_accepts diag_collide t0
                    state_collide world0); [| reflexivity | reflexivity].
        reflexivity.
      * repeat split; reflexivity.
Qed.

(** The end-to-end scenario: one record with the four keys, then the grid
    and the cleanup, three calls on the monitor in all and no error. *)
Example end_to_end_scenario :
  exists (m : gmap string Value) (g : gmap string Quantity),
    (store "z" backend_accepts diag_sample t0 state_sample ;;
     store_grid backend_accepts diag_sample
       {| lat := phis_sample; lon := phis_sample |} ;;
     cleanup backend_accepts diag_sample) world0
    = ({| monitor_calls := [MonitorStore m; MonitorStoreConstant g; MonitorCleanup];
          warnings := [] |}, Ok tt)
    /\ dom m = {[ "time"; "u"; "v"; "column_integrated_qv" ]}
    /\ m !! "time" = Some (VTime t0)
    /\ dom g = {[ "lat"; "lon" ]}.
Proof.
  do 2 eexists. split.
  - cbn [bind py_monad]. unfold py_bind.
    erewrite (store_steps "z" backend_accepts diag_sample t0 state_sample
                world0); [| reflexivity | reflexivity].
    reflexivity.
  - split; [vm_compute; reflexivity |].
    split; [reflexivity | vm_compute; reflexivity].
Qed.

(** The same timestep on a backend that refuses the record: the record is
    handed over, and the exception of the backend leaves [store]. *)
Example store_backend_refuses :
  exists m : gmap string Value,
    store "z" backend_refuses diag_sample t0 state_sample world0
    = ({| monitor_calls := [MonitorStore m]; warnings := [] |},
       Raise (OtherException "OSError" "No space left on device"))
    /\ dom m = {[ "time"; "u"; "v"; "column_integrated_qv" ]}.
Proof.
  eexists. split.
  - erewrite (store_steps "z" backend_refuses diag_sample t0 state_sample
                world0); [| reflexivity | reflexivity].
    reflexivity.
  - vm_compute. reflexivity.
Qed.

Lemma store_reaches_monitor_witness :
  exists m : gmap string Value,
    monitor_calls
      (fst (store "z" backend_refuses diag_mixed t0 state_sample world0))
      = monitor_calls world0 ++ [MonitorStore m]
    /\ snd (store "z" backend_refuses diag_mixed t0 state_sample world0)
       = backend_refuses (monitor_calls world0) (MonitorStore m).
Proof.
  apply (proj1 (store_reaches_monitor "z" backend_refuses diag_mixed t0
                  state_sample world0)).
  split.
  - intros n Hn. elem_cases Hn.
    + left. exists qv_sample. reflexivity.
    + right. exists qv_sample. reflexivity.
  - intros n Hn Hs. elem_cases Hn; [discriminate Hs | reflexivity].
Defined.

Lemma derived_state_warnings_witness :
  exists (w' : World) (out : gmap string Value),
    _get_derived_state "z" diag_unsupported state_sample world0 = (w', Ok out)
    /\ warnings w' =
         warnings world0
         ++ map unsupported_msg
              (List.filter unsupported (md_derived_names diag_unsupported))
    /\ monitor_calls w' = monitor_calls world0
    /\ dom out =
         list_to_set (List.filter supported (md_derived_names diag_unsupported)).
Proof.
  assert (H : exists w' out,
             _get_derived_state "z" diag_unsupported state_sample world0
             = (w', Ok out))
    by (do 2 eexists; reflexivity).
  destruct H as (w' & out & H). exists w', out. split; [exact H |].
  exact (derived_state_warnings "z" diag_unsupported state_sample world0 w' out H).
Defined.

Lemma store_record_keys_witness :
  exists (w' : World) (m : gmap string Value),
    store "z" backend_accepts diag_mixed t0 state_sample world0 = (w', Ok tt)
    /\ monitor_calls w' = monitor_calls world0 ++ [MonitorStore m]
    /\ dom m = {[ "time" ]} ∪ list_to_set (md_names diag_mixed)
               ∪ list_to_set (List.filter supported (md_derived_names diag_mixed))
    /\ ("time" ∉ md_names diag_mixed -> m !! "time" = Some (VTime t0))
    /\ (forall n, n ∈ md_names diag_mixed ->
          ~ (n ∈ md_derived_names diag_mixed /\ supported n = true) ->
          exists q, lookup_raw state_sample n = Ok q
                    /\ m !! n = Some (VQuantity q))
    /\ (forall n, n ∈ md_derived_names diag_mixed -> supported n = true ->
          exists r, column_integrated "z" state_sample n = Ok r
                    /\ m !! n = Some (VQuantity r))
    /\ (forall n, supported n = false -> n ∉ md_names diag_mixed ->
          n <> "time" -> m !! n = None).
Proof.
  assert (H : exists w',
             store "z" backend_accepts diag_mixed t0 state_sample world0
             = (w', Ok tt))
    by (eexists;
        erewrite (store_steps "z" backend_accepts diag_mixed t0 state_sample
                    world0); [| reflexivity | reflexivity];
        reflexivity).
  destruct H as (w' & H).
  destruct (store_record_keys "z" backend_accepts diag_mixed t0 state_sample
              world0 w' H) as (m & Hm).
  exists w', m. split; [exact H | exact Hm].
Defined.

(** ** Factory *)

Lemma factory_null_nothing_requested_witness :
  DiagnosticsConfig_init None "zarr" 1 [] [] = Ok config_default
  /\ diagnostics_factory outside_fresh true config_default comm_sample fs_sample
     = (fs_sample, Ok NullDiagnostics)
  /\ (None : option string) = None /\ ([] : list string) = []
  /\ ([] : list string) = [] /\ fs_sample = fs_sample.
Proof.
  split; [reflexivity |]. split; [reflexivity |].
  apply (factory_null_nothing_requested outside_fresh true None "zarr" 1 [] []
           config_default comm_sample fs_sample fs_sample);
    reflexivity.
Defined.

Lemma factory_monitor_witness :
  let monitored :=
    Monitored
      (ZarrMonitor (DirectoryStore "/tmp/out") (PartitionerHandle 0)
         (MPICommHandle 0))
      {| md_names := ["u"; "v"];
         md_derived_names := ["column_integrated_qv"] |} in
  (forall (fs' : FileSystem) (d : Diagnostics),
     diagnostics_factory outside_fresh true config_sample comm_sample fs_sample
       = (fs', Ok d) -> d = monitored)
  /\ exists fs' : FileSystem,
       diagnostics_factory outside_fresh true config_sample comm_sample
         fs_sample = (fs', Ok monitored).
Proof.
  destruct (factory_monitor outside_fresh true "/tmp/out" "zarr" 1 ["u"; "v"]
              ["column_integrated_qv"] config_sample comm_sample fs_sample
              eq_refl) as [Hd Hret].
  split; [exact Hd |].
  apply Hret; [left; reflexivity | intros h call; reflexivity].
Defined.

(** The calls of the factory on the sample, where the directory is
    absent: the filesystem, the test, the creation, the directory store
    and the monitor. *)
Example factory_sample_calls :
  outside_calls
    (fst (diagnostics_factory outside_fresh true config_sample comm_sample
            fs_sample))
  = [GetFs "/tmp/out"; FsExists "/tmp/out"; FsMakedirs "/tmp/out";
     NewDirectoryStore "/tmp/out";
     NewZarrMonitor (DirectoryStore "/tmp/out") (PartitionerHandle 0)
       (MPICommHandle 0)].
Proof. reflexivity. Qed.

Lemma factory_failure_witness :
  exists fs' : FileSystem,
    diagnostics_factory outside_regular_file true config_sample comm_sample
      fs_sample
    = (fs', Raise (OtherException "FSPathExistNotDir"
                     "path exists but is not a directory"))
    /\ exists dir : string,
         Some "/tmp/out" = Some dir
         /\ ((true = false /\ "zarr" = "zarr"
              /\ OtherException "FSPathExistNotDir"
                   "path exists but is not a directory"
                 = AttributeError "DirectoryStore")
             \/ (exists (h : list OutsideCall) (call : OutsideCall),
                   outside_calls fs' = h ++ [call]
                   /\ outside_regular_file h call
                      = Raise (OtherException "FSPathExistNotDir"
                                 "path exists but is not a directory"))).
Proof.
  eexists. split; [reflexivity |].
  apply (factory_failure outside_regular_file true (Some "/tmp/out") "zarr" 1
           ["u"; "v"] ["column_integrated_qv"] config_sample comm_sample
           fs_sample);
    reflexivity.
Defined.

(** Without the zarr storage module the factory fails on the "zarr"
    format at the attribute access, after the directory was created and
    before any store or monitor is built. *)
Example factory_without_zarr :
  diagnostics_factory outside_fresh false config_sample comm_sample fs_sample
  = ({| outside_calls :=
          [GetFs "/tmp/out"; FsExists "/tmp/out"; FsMakedirs "/tmp/out"] |},
     Raise (AttributeError "DirectoryStore")).
Proof. reflexivity. Qed.

Lemma factory_directory_witness :
  exists rest : list OutsideCall,
    outside_calls
      (fst (diagnostics_factory outside_fresh true config_sample comm_sample
              fs_sample))
      = outside_calls fs_sample ++ GetFs "/tmp/out" :: rest
    /\ (forall d : string,
          FsMakedirs d ∈ rest ->
          d = "/tmp/out"
          /\ is_ok (outside_fresh (outside_calls fs_sample) (GetFs "/tmp/out"))
             = true
          /\ outside_fresh (outside_calls fs_sample ++ [GetFs "/tmp/out"])
               (FsExists "/tmp/out") = Ok false)
    /\ (is_ok (outside_fresh (outside_calls fs_sample) (GetFs "/tmp/out"))
        = true ->
        outside_fresh (outside_calls fs_sample ++ [GetFs "/tmp/out"])
          (FsExists "/tmp/out") = Ok false ->
        exists rest' : list OutsideCall,
          rest = FsExists "/tmp/out" :: FsMakedirs "/tmp/out" :: rest'
          /\ forall d : string, ~ (FsMakedirs d ∈ rest')).
Proof.
  apply (factory_directory outside_fresh true config_sample comm_sample
           fs_sample "/tmp/out").
  reflexivity.
Defined.

